(** * statsd: a shallow embedding of the Go client (conn.go, statsd.go)

    The development follows the two source files of the package:
    - [conn.go]: the [Client] (UDP connection, counter buffer, flush loop,
      the low-level emitters, [send], [checkCount], [checkSampleRate],
      [shouldFire]);
    - [statsd.go]: the package-level configuration, the public emitters and
      the asynchronous dispatcher ([sendAsync], [sendEx]).

    Go values are modelled as follows: [int64] is a [Z] with its wrap-around
    written out, [float32] and [float64] are IEEE-754 values of the standard
    library's [spec_float] (NaN, infinities and signed zeros included), a
    slice is a [list], a nil pointer is [None], a panic is an outcome of its
    own, and every mutable object is threaded explicitly. *)

From Stdlib Require Import ZArith List String Ascii Bool Lia.
From Stdlib Require Import SpecFloat DecimalString.
Import ListNotations.
Open Scope string_scope.
Open Scope Z_scope.

(** ** Machine integers *)

Module Int64.

Definition min_int : Z := - 2 ^ 63.
Definition max_int : Z := 2 ^ 63 - 1.

Definition in_range (z : Z) : Prop := min_int <= z <= max_int.

(** Two's complement wrap-around of a mathematical integer. *)
Definition wrap (z : Z) : Z := (z + 2 ^ 63) mod 2 ^ 64 - 2 ^ 63.

Definition add (a b : Z) : Z := wrap (a + b).
Definition neg (a : Z) : Z := wrap (- a).

(** Go's [/] on integers truncates toward zero. *)
Definition quot (a b : Z) : Z := wrap (Z.quot a b).

End Int64.

(** ** IEEE-754 values

    A [float32] is a [spec_float] that is valid for precision 24 and
    exponent bound 128; a [float64] one for 53 and 1024.  The comparisons
    are those of the standard library's specification, which return [false]
    on NaN like Go's [<], [<=] and [==]. *)

Definition float32 := spec_float.
Definition float64 := spec_float.

Module F32.

Definition prec : Z := 24.
Definition emax : Z := 128.

Definition valid (x : float32) : bool := valid_binary prec emax x.

Definition zero : float32 := S754_zero false.
(** The constant [1] converted to [float32]: [2^23 * 2^-23]. *)
Definition one : float32 := S754_finite false 8388608 (-23).

(** Conversion of an integer constant and of a decimal constant
    [n / d] to [float32], rounding to nearest even. *)
Definition of_Z (n : Z) : float32 := binary_normalize prec emax n 0 false.
Definition of_ratio (n d : Z) : float32 := SFdiv prec emax (of_Z n) (of_Z d).

End F32.

Module F64.

Definition prec : Z := 53.
Definition emax : Z := 1024.

Definition valid (x : float64) : bool := valid_binary prec emax x.

Definition of_Z (n : Z) : float64 := binary_normalize prec emax n 0 false.

End F64.

(** The mathematical value of a float, as a fraction [num / 2^k] with the
    sign apart: [Some (s, num, k)] stands for [(-1)^s * num / 2^k]. *)
Definition dyadic (x : spec_float) : option (bool * Z * Z) :=
  match x with
  | S754_zero s => Some (s, 0, 0)
  | S754_finite s m e =>
      if 0 <=? e then Some (s, Z.pos m * 2 ^ e, 0) else Some (s, Z.pos m, - e)
  | _ => None
  end.

(** ** Formatting, as [fmt.Sprintf] does it *)

Module Fmt.

(** [%d], and [%v] of an integer. *)
Definition d (z : Z) : string := NilZero.string_of_int (Z.to_int z).

Definition digit (z : Z) : ascii := ascii_of_nat (48 + Z.to_nat (z mod 10)).

(** The six digits of [n mod 10^6], leading zeros kept. *)
Definition six (n : Z) : string :=
  String (digit (n / 100000))
    (String (digit (n / 10000))
       (String (digit (n / 1000))
          (String (digit (n / 100))
             (String (digit (n / 10)) (String (digit n) EmptyString))))).

(** [num / den] rounded to the nearest integer, ties to even. *)
Definition round_half_even (num den : Z) : Z :=
  let q := num / den in
  let r := num mod den in
  match 2 * r ?= den with
  | Lt => q
  | Gt => q + 1
  | Eq => if Z.even q then q else q + 1
  end.

Definition sign (s : bool) : string := if s then "-" else "".

(** [%f]: the default precision is six digits after the point; the exact
    binary value is rounded to nearest, ties to even. *)
Definition f (x : spec_float) : string :=
  match x with
  | S754_nan => "NaN"
  | S754_infinity s => if s then "-Inf" else "+Inf"
  | _ =>
      match dyadic x with
      | Some (s, num, k) =>
          let n := round_half_even (num * 10 ^ 6) (2 ^ k) in
          sign s ++ d (n / 10 ^ 6) ++ "." ++ six n
      | None => ""
      end
  end.

End Fmt.

(** [%v] of a [float64] is the shortest decimal that reads back as the same
    value, laid out by Go's [strconv]; it lies outside the package and is an
    operation of the environment. *)
Class Strconv := { formatFloat64 : float64 -> string }.

(** A value of type [interface{}], as the package passes them around: the
    untyped constant [0] of [send(stat, 0, "g", 1)] is an [int]. *)
Inductive iface : Type :=
| I_int (n : Z)
| I_int64 (n : Z)
| I_float64 (x : float64).

Definition fmt_v {SC : Strconv} (v : iface) : string :=
  match v with
  | I_int n | I_int64 n => Fmt.d n
  | I_float64 x => formatFloat64 x
  end.

(** [strings.TrimRight(s, ".")]: every trailing dot is removed. *)
Fixpoint trimLeftDots (s : string) : string :=
  match s with
  | String "."%char r => trimLeftDots r
  | _ => s
  end.

Fixpoint rev_string (s acc : string) : string :=
  match s with
  | EmptyString => acc
  | String a r => rev_string r (String a acc)
  end.

Definition TrimRightDots (s : string) : string :=
  rev_string (trimLeftDots (rev_string s "")) "".

(** ** conn.go *)

Inductive error : Type :=
| ErrNotConnected
| ErrInvalidCount
| ErrInvalidSampleRate
| ErrNet (msg : string).

(** The UDP socket: [wlog] is the list of payloads handed to [Write], oldest
    first, one datagram each; whether the n-th [Write] reports an error is
    decided by the network ([werr]). *)
Record Conn : Type := mkConn {
  wlog : list string;
  werr : nat -> option error
}.

Definition Write (k : Conn) (payload : string) : option error * Conn :=
  (werr k (List.length (wlog k)), mkConn (app (wlog k) [payload]) (werr k)).

Record countBuffer : Type := mkCountBuffer {
  name : string;
  count : Z
}.

(** The process-wide random source [fireRand]: the stream of its draws and
    how many were consumed. *)
Record Rand : Type := mkRand {
  draws : nat -> float32;
  drawn : nat
}.

Definition Float32 (g : Rand) : float32 * Rand :=
  (draws g (drawn g), mkRand (draws g) (S (drawn g))).

Definition checkCount (c : Z) : option error :=
  if c <=? 0 then Some ErrInvalidCount else None.

Definition checkSampleRate (r : float32) : option error :=
  if SFltb r F32.zero || SFltb F32.one r then Some ErrInvalidSampleRate else None.

Definition shouldFire (sampleRate : float32) (g : Rand) : bool * Rand :=
  if SFeqb sampleRate F32.one then (true, g)
  else let (x, g') := Float32 g in (SFleb x sampleRate, g').

Module Client.

(** The mutex [m] has no field of its own: a critical section is one
    atomic function of the model.  [flushticker] is the ticker's state. *)
Record t : Type := mk {
  addr : string;
  prefix : string;
  conn : option Conn;
  buffer : list countBuffer;
  flushticker : bool
}.

Definition set_conn (c : t) (k : option Conn) : t :=
  mk (addr c) (prefix c) k (buffer c) (flushticker c).

Definition set_buffer (c : t) (b : list countBuffer) : t :=
  mk (addr c) (prefix c) (conn c) b (flushticker c).

(** The payloads written to the socket so far. *)
Definition wire (c : t) : list string :=
  match conn c with
  | Some k => wlog k
  | None => []
  end.

(** [newClient]: [dial] is [net.DialTimeout("udp", _, 5s)].  The flush
    loop it starts is [bufferSendLoop] below. *)
Definition newClient (dial : string -> error + Conn) (addr prefix : string)
  : error + t :=
  let prefix := TrimRightDots prefix in
  match dial addr with
  | inl err => inl err
  | inr k => inr (mk addr prefix (Some k) [] true)
  end.

(** The loop of [addToBuffer] over the buckets: the first bucket named
    [stat] is incremented and the loop returns; [None] when there is
    none. *)
Fixpoint bump (stat : string) (b : list countBuffer) : option (list countBuffer) :=
  match b with
  | [] => None
  | x :: r =>
      if String.eqb (name x) stat
      then Some (mkCountBuffer (name x) (Int64.add (count x) 1) :: r)
      else option_map (cons x) (bump stat r)
  end.

Definition addToBuffer (c : t) (stat : string) (count : Z) : t :=
  match bump stat (buffer c) with
  | Some b => set_buffer c b
  | None => set_buffer c (app (buffer c) [mkCountBuffer stat count])
  end.

Section Emit.
Context {SC : Strconv}.

(** The text of a metric, as [send] builds it with its two [Sprintf]. *)
Definition metric (prefix bucket : string) (value : iface) (t : string)
  (sampleRate : float32) : string :=
  let bucket :=
    if String.eqb prefix "" then bucket else prefix ++ "." ++ bucket in
  bucket ++ ":" ++ fmt_v value ++ "|" ++ t ++ "|@" ++ Fmt.f sampleRate.

Definition send (c : t) (bucket : string) (value : iface) (t : string)
  (sampleRate : float32) : option error * Client.t :=
  match conn c with
  | None => (Some ErrNotConnected, c)
  | Some k =>
      let (err, k') := Write k (metric (prefix c) bucket value t sampleRate) in
      (err, set_conn c (Some k'))
  end.

(** One turn of [bufferSendLoop]: the critical section (lines 58-65)... *)
Definition swapBuffer (c : t) : list countBuffer * Client.t :=
  match buffer c with
  | [] => ([], c)
  | b => (b, set_buffer c [])
  end.

(** ... and the sends outside the lock (lines 66-68). *)
Fixpoint sendAll (c : t) (b : list countBuffer) : Client.t :=
  match b with
  | [] => c
  | x :: r => sendAll (snd (send c (name x) (I_int64 (count x)) "c" F32.one)) r
  end.

Definition bufferSendLoop_tick (c : t) : Client.t :=
  let (b, c') := swapBuffer c in sendAll c' b.

Definition IncrWithSampling (c : t) (stat : string) (count : Z)
  (sampleRate : float32) (g : Rand) : option error * Client.t * Rand :=
  match checkSampleRate sampleRate with
  | Some err => (Some err, c, g)
  | None =>
      let (fire, g') := shouldFire sampleRate g in
      if negb fire then (None, c, g')
      else
        match checkCount count with
        | Some err => (Some err, c, g')
        | None => (None, addToBuffer c stat count, g')
        end
  end.

Definition Incr (c : t) (stat : string) (count : Z) (g : Rand) :=
  IncrWithSampling c stat count F32.one g.

Definition DecrWithSampling (c : t) (stat : string) (count : Z)
  (sampleRate : float32) (g : Rand) : option error * Client.t * Rand :=
  match checkSampleRate sampleRate with
  | Some err => (Some err, c, g)
  | None =>
      let (fire, g') := shouldFire sampleRate g in
      if negb fire then (None, c, g')
      else
        match checkCount count with
        | Some err => (Some err, c, g')
        | None =>
            let (err, c') := send c stat (I_int64 (Int64.neg count)) "c" sampleRate in
            (err, c', g')
        end
  end.

Definition Decr (c : t) (stat : string) (count : Z) (g : Rand) :=
  DecrWithSampling c stat count F32.one g.

Definition TimingWithSampling (c : t) (stat : string) (delta : Z)
  (sampleRate : float32) (g : Rand) : option error * Client.t * Rand :=
  match checkSampleRate sampleRate with
  | Some err => (Some err, c, g)
  | None =>
      let (fire, g') := shouldFire sampleRate g in
      if negb fire then (None, c, g')
      else
        let (err, c') := send c stat (I_int64 delta) "ms" sampleRate in
        (err, c', g')
  end.

Definition Timing (c : t) (stat : string) (delta : Z) (g : Rand) :=
  TimingWithSampling c stat delta F32.one g.

Definition GaugeWithSampling (c : t) (stat : string) (value : Z)
  (sampleRate : float32) (g : Rand) : option error * Client.t * Rand :=
  match checkSampleRate sampleRate with
  | Some err => (Some err, c, g)
  | None =>
      let (fire, g') := shouldFire sampleRate g in
      if negb fire then (None, c, g')
      else
        let c1 := if value <? 0 then snd (send c stat (I_int 0) "g" F32.one) else c in
        let (err, c') := send c1 stat (I_int64 value) "g" sampleRate in
        (err, c', g')
  end.

Definition Gauge (c : t) (stat : string) (value : Z) (g : Rand) :=
  GaugeWithSampling c stat value F32.one g.

Definition FGaugeWithSampling (c : t) (stat : string) (value : float64)
  (sampleRate : float32) (g : Rand) : option error * Client.t * Rand :=
  match checkSampleRate sampleRate with
  | Some err => (Some err, c, g)
  | None =>
      let (fire, g') := shouldFire sampleRate g in
      if negb fire then (None, c, g')
      else
        let c1 :=
          if SFltb value (S754_zero false)
          then snd (send c stat (I_int 0) "g" F32.one) else c in
        let (err, c') := send c1 stat (I_float64 value) "g" sampleRate in
        (err, c', g')
  end.

Definition FGauge (c : t) (stat : string) (value : float64) (g : Rand) :=
  FGaugeWithSampling c stat value F32.one g.

End Emit.

End Client.

(** What any [*WithSampling] method of a nil [*Client] does: the checks
    that precede the first use of the receiver run as usual ([count] is
    given for the two methods that call [checkCount]); [None] is the nil
    dereference that follows them. *)
Definition nil_receiver (sampleRate : float32) (count : option Z) (g : Rand)
  : option (option error) * Rand :=
  match checkSampleRate sampleRate with
  | Some err => (Some (Some err), g)
  | None =>
      let (fire, g') := shouldFire sampleRate g in
      if negb fire then (Some None, g')
      else
        match count with
        | Some n =>
            match checkCount n with
            | Some err => (Some (Some err), g')
            | None => (None, g')
            end
        | None => (None, g')
        end
  end.

(** ** statsd.go *)

Record Config : Type := mkConfig {
  Host : string;
  Port : Z;
  Project : string;
  Enable : bool;
  SampleRate : float32
}.

Definition defaultSampleRate : float32 := F32.one.

Inductive metricType : Type :=
| metricTypeCount
| metricTypeGauge
| metricTypeFGauge
| metricTypeTimer
| metricTypeOther (n : Z).

Record sendItem : Type := mkSendItem {
  stat : string;
  val : iface;
  t : metricType;
  sampleRate : float32
}.

(** [time.Duration] is an [int64] of nanoseconds; a [time.Time] is a point
    of the time line in nanoseconds, and [Sub] saturates. *)
Definition Millisecond : Z := 1000000.

Definition Sub (t2 t1 : Z) : Z :=
  Z.max Int64.min_int (Z.min Int64.max_int (t2 - t1)).

(** The package-level variables, the random source of conn.go and the
    network.  [sendCh] is [None] for the nil channel and else the items
    queued, oldest first; every channel of the package is made with
    capacity 1024.  [worker] tells whether the draining goroutine of
    [sendAsync] was started; its [cli] is [defaultClient]. *)
Record World : Type := mkWorld {
  config : option Config;
  addr : string;
  once : bool;
  defaultClient : option Client.t;
  sendLoopOnce : bool;
  sendCh : option (list sendItem);
  worker : bool;
  fireRand : Rand;
  dial : string -> error + Conn
}.

Definition sendChCap : nat := 1024.

Inductive outcome : Type :=
| Returned (w : World)
| Panicked (w : World).

Definition bind (o : outcome) (k : World -> outcome) : outcome :=
  match o with
  | Returned w => k w
  | Panicked w => Panicked w
  end.

Definition set_client (w : World) (c : option Client.t) (g : Rand) : World :=
  mkWorld (config w) (addr w) (once w) c (sendLoopOnce w) (sendCh w)
    (worker w) g (dial w).

Definition set_sendCh (w : World) (q : option (list sendItem)) : World :=
  mkWorld (config w) (addr w) (once w) (defaultClient w) (sendLoopOnce w) q
    (worker w) (fireRand w) (dial w).

Definition Setup (w : World) (cfg : Config) : World :=
  let cfg :=
    if SFeqb (SampleRate cfg) F32.zero
    then mkConfig (Host cfg) (Port cfg) (Project cfg) (Enable cfg) defaultSampleRate
    else cfg in
  mkWorld (Some cfg) (Host cfg ++ ":" ++ Fmt.d (Port cfg)) (once w)
    (defaultClient w) (sendLoopOnce w) (sendCh w) (worker w) (fireRand w)
    (dial w).

(** [once.Do] marks the gate as passed also when its function panics. *)
Definition getClient (w : World) : outcome :=
  if once w then Returned w
  else
    let w1 := mkWorld (config w) (addr w) true (defaultClient w)
                (sendLoopOnce w) (sendCh w) (worker w) (fireRand w) (dial w) in
    match config w with
    | None => Panicked w1
    | Some cfg =>
        match Client.newClient (dial w) (addr w) (Project cfg) with
        | inl _ => Panicked w1
        | inr c => Returned (set_client w1 (Some c) (fireRand w1))
        end
    end.

(** A method call [client.M(...)] on a pointer that may be nil. *)
Definition call (client : option Client.t)
  (m : Client.t -> Rand -> option error * Client.t * Rand)
  (on_nil : Rand -> option (option error) * Rand) (w : World) : outcome :=
  match client with
  | Some c =>
      let '(_, c', g') := m c (fireRand w) in
      Returned (set_client w (Some c') g')
  | None =>
      match on_nil (fireRand w) with
      | (Some _, g') => Returned (set_client w (defaultClient w) g')
      | (None, g') => Panicked (set_client w (defaultClient w) g')
      end
  end.

Section Package.
Context {SC : Strconv}.

Definition Incr (w : World) (stat : string) : outcome :=
  bind (getClient w) (fun w =>
    call (defaultClient w) (fun c => Client.Incr c stat 1)
      (nil_receiver F32.one (Some 1)) w).

Definition IncrByVal (w : World) (stat : string) (val : Z) : outcome :=
  match config w with
  | None => Returned w
  | Some cfg =>
      bind (getClient w) (fun w =>
        call (defaultClient w)
          (fun c => Client.IncrWithSampling c stat val (SampleRate cfg))
          (nil_receiver (SampleRate cfg) (Some val)) w)
  end.

Definition IncrWithSampling (w : World) (stat : string) (val : Z)
  (sampleRate : float32) : outcome :=
  match config w with
  | None => Returned w
  | Some cfg =>
      if negb (Enable cfg) then Returned w
      else if val =? 0 then Returned w
      else
        bind (getClient w) (fun w =>
          call (defaultClient w)
            (fun c => Client.IncrWithSampling c stat val sampleRate)
            (nil_receiver sampleRate (Some val)) w)
  end.

(** The non-blocking [select] of [sendAsync]: a send on a nil channel or
    on a full one is never ready, and the [default] branch is taken. *)
Definition trySend (w : World) (item : sendItem) : World :=
  match sendCh w with
  | Some q =>
      if (List.length q <? sendChCap)%nat
      then set_sendCh w (Some (app q [item]))
      else w
  | None => w
  end.

Definition sendAsync (w : World) (stat : string) (val : iface)
  (t : metricType) (sampleRate : float32) : outcome :=
  let started :=
    if sendLoopOnce w then Returned w
    else
      let q := match sendCh w with None => Some [] | q => q end in
      let w1 := mkWorld (config w) (addr w) (once w) (defaultClient w) true
                  q (worker w) (fireRand w) (dial w) in
      bind (getClient w1) (fun w2 =>
        Returned (mkWorld (config w2) (addr w2) (once w2) (defaultClient w2)
                    (sendLoopOnce w2) (sendCh w2) true (fireRand w2) (dial w2)))
  in
  bind started (fun w => Returned (trySend w (mkSendItem stat val t sampleRate))).

Definition send (w : World) (stat : string) (val : iface) (t : metricType)
  (sampleRate : float32) : outcome :=
  sendAsync w stat val t sampleRate.

Definition gauge (w : World) (stat : string) (val : iface) (t : metricType)
  (sampleRate : float32) : outcome :=
  send w stat val t sampleRate.

Definition GaugeWithSampling (w : World) (stat : string) (val : Z)
  (sampleRate : float32) : outcome :=
  match config w with
  | None => Returned w
  | Some cfg =>
      if negb (Enable cfg) then Returned w
      else gauge w stat (I_int64 val) metricTypeGauge sampleRate
  end.

Definition Gauge (w : World) (stat : string) (val : Z) : outcome :=
  match config w with
  | None => Returned w
  | Some cfg => GaugeWithSampling w stat val (SampleRate cfg)
  end.

Definition Gauge2Times (w : World) (stat : string) (val : Z) : outcome :=
  bind (Gauge w stat val) (fun w => Gauge w stat val).

Fixpoint GaugeTimes (n : nat) (w : World) (stat : string) (val : Z) : outcome :=
  match n with
  | O => Returned w
  | S n => bind (Gauge w stat val) (fun w => GaugeTimes n w stat val)
  end.

Definition GaugeMultiTimes (w : World) (stat : string) (val : Z) (t : Z)
  : outcome :=
  if t <=? 0 then Returned w else GaugeTimes (Z.to_nat t) w stat val.

Definition FGaugeWithSampling (w : World) (stat : string) (val : float64)
  (sampleRate : float32) : outcome :=
  match config w with
  | None => Returned w
  | Some cfg =>
      if negb (Enable cfg) then Returned w
      else gauge w stat (I_float64 val) metricTypeFGauge sampleRate
  end.

Definition FGauge (w : World) (stat : string) (val : float64) : outcome :=
  match config w with
  | None => Returned w
  | Some cfg => FGaugeWithSampling w stat val (SampleRate cfg)
  end.

Definition TimingByValueWithSampling (w : World) (stat : string) (d : Z)
  (sampleRate : float32) : outcome :=
  match config w with
  | None => Returned w
  | Some cfg =>
      if negb (Enable cfg) then Returned w
      else
        let t := Int64.quot d Millisecond in
        send w stat (I_int64 t) metricTypeTimer sampleRate
  end.

Definition TimingByValue (w : World) (stat : string) (d : Z) : outcome :=
  match config w with
  | None => Returned w
  | Some cfg => TimingByValueWithSampling w stat d (SampleRate cfg)
  end.

Definition TimingWithSampling (w : World) (stat : string) (t1 t2 : Z)
  (sampleRate : float32) : outcome :=
  TimingByValueWithSampling w stat (Sub t2 t1) sampleRate.

Definition Timing (w : World) (stat : string) (t1 t2 : Z) : outcome :=
  match config w with
  | None => Returned w
  | Some cfg => TimingWithSampling w stat t1 t2 (SampleRate cfg)
  end.

(** [sendEx]: the type assertions [val.(int64)] and [val.(float64)]
    succeed on a value of exactly that dynamic type. *)
Definition sendEx (client : option Client.t) (stat : string) (val : iface)
  (t : metricType) (sampleRate : float32) (w : World) : outcome :=
  if String.eqb stat "" then Returned w
  else
    match t, val with
    | metricTypeCount, I_int64 i =>
        call client (fun c => Client.IncrWithSampling c stat i sampleRate)
          (nil_receiver sampleRate (Some i)) w
    | metricTypeGauge, I_int64 i =>
        call client (fun c => Client.GaugeWithSampling c stat i sampleRate)
          (nil_receiver sampleRate None) w
    | metricTypeFGauge, I_float64 x =>
        call client (fun c => Client.FGaugeWithSampling c stat x sampleRate)
          (nil_receiver sampleRate None) w
    | metricTypeTimer, I_int64 i =>
        call client (fun c => Client.TimingWithSampling c stat i sampleRate)
          (nil_receiver sampleRate None) w
    | _, _ => Returned w
    end.

(** One turn of the worker's [for item := range sendCh]: the oldest item
    leaves the queue and goes through [sendEx] with the worker's [cli].
    With nothing queued, or no worker, nothing happens. *)
Definition workerStep (w : World) : outcome :=
  if worker w then
    match sendCh w with
    | Some (item :: q) =>
        let w1 := set_sendCh w (Some q) in
        sendEx (defaultClient w1) (stat item) (val item) (t item)
          (sampleRate item) w1
    | _ => Returned w
    end
  else Returned w.

(** One tick of the flush loop of the default client. *)
Definition flushTick (w : World) : World :=
  match defaultClient w with
  | Some c => set_client w (Some (Client.bufferSendLoop_tick c)) (fireRand w)
  | None => w
  end.

End Package.

(** * Properties *)

(** ** The value of a [float32] *)

(** A float below zero: minus infinity, or a finite value [- num / 2^k]
    with [num > 0]. *)
Definition below_zero (x : spec_float) : Prop :=
  x = S754_infinity true \/
  exists num k, dyadic x = Some (true, num, k) /\ 0 < num.

(** A float above one: plus infinity, or a finite value [num / 2^k]
    with [num > 2^k]. *)
Definition above_one (x : spec_float) : Prop :=
  x = S754_infinity false \/
  exists num k, dyadic x = Some (false, num, k) /\ 2 ^ k < num.

(** A float of the interval [0,1]: a zero, or [num / 2^k <= 1]. *)
Definition in_unit_interval (x : spec_float) : Prop :=
  exists s num k, dyadic x = Some (s, num, k) /\
    (num = 0 \/ (s = false /\ num <= 2 ^ k)).

(** ** Vocabulary of the statements *)

Definition is_digit (a : ascii) : Prop :=
  (48 <= nat_of_ascii a <= 57)%nat.

Fixpoint all_digits (s : string) : Prop :=
  match s with
  | EmptyString => True
  | String a r => is_digit a /\ all_digits r
  end.

(** The name a metric goes out under. *)
Definition prefixed (prefix stat : string) : string :=
  if String.eqb prefix "" then stat else prefix ++ "." ++ stat.

(** The counter line of a bucket at a flush. *)
Definition counterLine {SC : Strconv} (prefix : string) (b : countBuffer) : string :=
  Client.metric prefix (name b) (I_int64 (count b)) "c" F32.one.

(** The pending count held for [stat]: the counts of its buckets, added. *)
Fixpoint pending (stat : string) (b : list countBuffer) : Z :=
  match b with
  | [] => 0
  | x :: r => (if String.eqb (name x) stat then count x else 0) + pending stat r
  end.

(** A sequence of [add(name, delta)] calls, oldest first, and the sum of
    the deltas given for [stat]. *)
Fixpoint addAll (c : Client.t) (adds : list (string * Z)) : Client.t :=
  match adds with
  | [] => c
  | (stat, delta) :: r => addAll (Client.addToBuffer c stat delta) r
  end.

Fixpoint sumDeltas (stat : string) (adds : list (string * Z)) : Z :=
  match adds with
  | [] => 0
  | (n, delta) :: r => (if String.eqb n stat then delta else 0) + sumDeltas stat r
  end.

(** *** The flush goroutine next to the producers

    The mutex makes [addToBuffer] and the swap of [bufferSendLoop] atomic;
    the sends of a flush are not under the lock and interleave with the
    producers' additions.  [local] is the loop's variable [buffer], what
    is left of it to send; [swapped] records every bucket ever swapped
    out, oldest first.  A tick is received only by a loop that waits for
    one. *)
Inductive event : Type :=
| EvAdd (stat : string) (count : Z)
| EvTick
| EvSend.

Record flusher : Type := mkFlusher {
  cl : Client.t;
  local : list countBuffer;
  swapped : list countBuffer
}.

Definition step {SC : Strconv} (f : flusher) (e : event) : flusher :=
  match e with
  | EvAdd stat count => mkFlusher (Client.addToBuffer (cl f) stat count) (local f) (swapped f)
  | EvTick =>
      match local f with
      | [] =>
          let (b, c') := Client.swapBuffer (cl f) in
          mkFlusher c' b (app (swapped f) b)
      | _ => f
      end
  | EvSend =>
      match local f with
      | [] => f
      | x :: r =>
          mkFlusher (snd (Client.send (cl f) (name x) (I_int64 (count x)) "c" F32.one))
            r (swapped f)
      end
  end.

Definition run {SC : Strconv} (f : flusher) (tr : list event) : flusher :=
  fold_left step tr f.

(** What every interleaving of additions, ticks and sends keeps true:
    the lines written and those of the buckets still to send are the
    lines of the buckets swapped out, each once and in order. *)
Definition flush_inv {SC : Strconv} (w0 : list string) (p : string) (f : flusher) : Prop :=
  Client.conn (cl f) <> None /\ Client.prefix (cl f) = p
  /\ app (Client.wire (cl f)) (map (counterLine p) (local f))
     = app w0 (map (counterLine p) (swapped f)).

Definition names (b : list countBuffer) : list string := map name b.

(** The client of the examples: connected, nothing written, nothing
    pending, on a network that reports no error. *)
Definition fresh_client (prefix : string) : Client.t :=
  Client.mk "127.0.0.1:8125" prefix (Some (mkConn [] (fun _ => None))) [] true.

(** An environment for the examples: the special values and the integral
    values of magnitude below [10^6] are written as [%v] writes them, every
    other value with six decimals.  The theorems hold for every
    environment. *)
Definition exampleStrconv : Strconv :=
  {| formatFloat64 := fun x =>
       match x with
       | S754_nan => "NaN"
       | S754_infinity s => if s then "-Inf" else "+Inf"
       | _ =>
           match dyadic x with
           | Some (s, num, k) =>
               if (num mod 2 ^ k =? 0) && (num / 2 ^ k <? 10 ^ 6)
               then Fmt.sign s ++ Fmt.d (num / 2 ^ k)
               else Fmt.f x
           | None => ""
           end
       end |}.

(** A random source for the examples: every draw is [0.5]. *)
Definition exampleRand : Rand := mkRand (fun _ => F32.of_ratio 1 2) 0.

(** A network for the examples: every dial succeeds. *)
Definition exampleNet : string -> error + Conn :=
  fun _ => inr (mkConn [] (fun _ => None)).

(** *** The dispatcher *)

Definition queue (w : World) : list sendItem :=
  match sendCh w with
  | Some q => q
  | None => []
  end.


(** Once the dispatcher has started, its channel exists and holds at most
    its capacity. *)
Definition dispatcher_wf (w : World) : Prop :=
  (sendLoopOnce w = true -> sendCh w <> None) /\
  (List.length (queue w) <= sendChCap)%nat.

(** The process before [Setup]: nothing configured, nothing started. *)
Definition initial (g : Rand) (dial : string -> error + Conn) : World :=
  mkWorld None "" false None false None false g dial.

(** *** Further vocabulary *)

(** [n] dots. *)
Fixpoint dots (n : nat) : string :=
  match n with
  | O => ""
  | S n => String "."%char (dots n)
  end.


(** [n] turns of the worker, one after the other. *)
Fixpoint workerSteps {SC : Strconv} (n : nat) (w : World) : outcome :=
  match n with
  | O => Returned w
  | S n => bind (workerStep w) (workerSteps n)
  end.

(** Successive calls of [sendAsync], one per item. *)
Fixpoint sendAsyncAll (w : World) (items : list sendItem) : outcome :=
  match items with
  | [] => Returned w
  | i :: r =>
      bind (sendAsync w (stat i) (val i) (t i) (sampleRate i))
        (fun w => sendAsyncAll w r)
  end.

(** The item that [GaugeWithSampling] queues, and the line it becomes. *)
Definition gaugeItem (rate : float32) (p : string * Z) : sendItem :=
  mkSendItem (fst p) (I_int64 (snd p)) metricTypeGauge rate.

Definition gaugeLine {SC : Strconv} (prefix : string) (rate : float32)
  (p : string * Z) : string :=
  Client.metric prefix (fst p) (I_int64 (snd p)) "g" rate.

(** The value of an item agrees with its kind, as the type assertions of
    [sendEx] ask. *)
Definition well_typed (t : metricType) (v : iface) : bool :=
  match t, v with
  | metricTypeCount, I_int64 _ => true
  | metricTypeGauge, I_int64 _ => true
  | metricTypeFGauge, I_float64 _ => true
  | metricTypeTimer, I_int64 _ => true
  | _, _ => false
  end.

(** A process for the examples: set up and enabled at rate 1, its client
    connected, its dispatcher started, nothing queued. *)
Definition exampleWorld : World :=
  mkWorld (Some (mkConfig "127.0.0.1" 8125 "app" true F32.one))
    "127.0.0.1:8125" true (Some (fresh_client "app")) true (Some []) true
    exampleRand exampleNet.

(** Both ways a float lies outside an interval: an infinity, or a finite
    value. *)
Ltac outside_cases H :=
  let num := fresh "num" in
  let k := fresh "k" in
  let Hd := fresh "Hd" in
  let Hn := fresh "Hn" in
  destruct H as [H | (num & k & Hd & Hn)];
  [try discriminate H | try discriminate Hd].

Lemma digits2_pos_bounds (m : positive) :
  2 ^ (Z.pos (digits2_pos m) - 1) <= Z.pos m < 2 ^ Z.pos (digits2_pos m).
Proof.
  induction m as [m IH | m IH | ]; cbn [digits2_pos].
  - rewrite Pos2Z.inj_succ.
    replace (Z.succ (Z.pos (digits2_pos m)) - 1) with (Z.succ (Z.pos (digits2_pos m) - 1)) by lia.
    rewrite !Z.pow_succ_r by lia. lia.
  - rewrite Pos2Z.inj_succ.
    replace (Z.succ (Z.pos (digits2_pos m)) - 1) with (Z.succ (Z.pos (digits2_pos m) - 1)) by lia.
    rewrite !Z.pow_succ_r by lia. lia.
  - cbn. lia.
Qed.

(** What validity says of a finite [float32]: at most 24 digits, and
    exactly 24 above the smallest exponent. *)
Lemma valid_finite (s : bool) (m : positive) (e : Z) :
  F32.valid (S754_finite s m e) = true ->
  - 149 <= e <= 104 /\ Z.pos m < 2 ^ 24 /\ (- 149 < e -> 2 ^ 23 <= Z.pos m).
Proof.
  unfold F32.valid, valid_binary, bounded, canonical_mantissa, fexp, emin,
    F32.prec, F32.emax.
  intros Hv. apply andb_prop in Hv as [Hc He].
  apply Z.eqb_eq in Hc. apply Z.leb_le in He.
  pose proof (digits2_pos_bounds m) as [Hlo Hhi].
  set (dg := Z.pos (digits2_pos m)) in *.
  assert (Hd : 0 < dg) by (unfold dg; lia).
  split; [lia | split].
  - assert (dg <= 24) by lia.
    apply Z.lt_le_trans with (1 := Hhi). apply Z.pow_le_mono_r; lia.
  - intros Hgt. assert (dg = 24) by lia.
    replace 23 with (dg - 1) by lia. exact Hlo.
Qed.

Lemma dyadic_finite (s : bool) (m : positive) (e : Z) :
  exists num k, dyadic (S754_finite s m e) = Some (s, num, k) /\ 0 < num
    /\ (0 <= e -> num = Z.pos m * 2 ^ e /\ k = 0)
    /\ (e < 0 -> num = Z.pos m /\ k = - e).
Proof.
  unfold dyadic. destruct (Z.leb_spec 0 e) as [He | He].
  - exists (Z.pos m * 2 ^ e), 0. repeat split; try lia.
  - exists (Z.pos m), (- e). repeat split; lia.
Qed.

Lemma ltb_zero_spec (r : float32) :
  SFltb r F32.zero = true <-> below_zero r.
Proof.
  unfold below_zero.
  destruct r as [s | s | | s m e].
  - split; [discriminate | ]. intros Hr. outside_cases Hr.
    inversion Hd; subst. lia.
  - destruct s.
    + split; [intros _; left; reflexivity | reflexivity].
    + split; [discriminate | intros Hr; outside_cases Hr].
  - split; [discriminate | ]. intros Hr. outside_cases Hr.
  - destruct (dyadic_finite s m e) as (num & k & Hd & Hn & _).
    destruct s.
    + split; [ | reflexivity].
      intros _. right. exists num, k. split; assumption.
    + split; [discriminate | ].
      intros Hr. outside_cases Hr. rewrite Hd in Hd0. discriminate.
Qed.

Lemma ltb_one_spec (r : float32) :
  F32.valid r = true -> (SFltb F32.one r = true <-> above_one r).
Proof.
  unfold above_one. intros Hv.
  destruct r as [s | s | | s m e].
  - split; [discriminate | ]. intros Hr. outside_cases Hr.
    inversion Hd; subst. change (2 ^ 0) with 1 in Hn. lia.
  - destruct s.
    + split; [discriminate | intros Hr; outside_cases Hr].
    + split; [intros _; left; reflexivity | reflexivity].
  - split; [discriminate | ]. intros Hr. outside_cases Hr.
  - apply valid_finite in Hv as (He & Hm & Hnorm).
    destruct (dyadic_finite s m e) as (num & k & Hd & Hn & Hpos & Hneg).
    destruct s.
    { split; [discriminate | ]. intros Hr. outside_cases Hr.
      rewrite Hd in Hd0. discriminate. }
    assert (Hval : 2 ^ k < num <-> (-23 < e \/ (e = -23 /\ 8388608 < Z.pos m))).
    { change 8388608 with (2 ^ 23).
      destruct (Z.lt_trichotomy (-23) e) as [Hlt | [Heq | Hgt]].
      - split; [intros _; left; exact Hlt | intros _].
        specialize (Hnorm ltac:(lia)).
        destruct (Z.le_gt_cases 0 e) as [Hz | Hz].
        + destruct (Hpos Hz) as [-> ->].
          assert (0 < 2 ^ e) by (apply Z.pow_pos_nonneg; lia).
          change (2 ^ 0) with 1. change (2 ^ 23) with 8388608 in Hnorm. nia.
        + destruct (Hneg Hz) as [-> ->].
          apply Z.lt_le_trans with (2 := Hnorm).
          apply Z.pow_lt_mono_r; lia.
      - subst e. destruct (Hneg ltac:(lia)) as [-> ->].
        change (- -23) with 23. split; [intros Hk; right; split; [reflexivity | exact Hk] | ].
        intros [Hk | [_ Hk]]; [lia | exact Hk].
      - destruct (Hneg ltac:(lia)) as [-> ->].
        assert (2 ^ 24 <= 2 ^ (- e)) by (apply Z.pow_le_mono_r; lia).
        split; [lia | intros [Hk | [Hk _]]; lia]. }
    unfold SFltb, SFcompare, F32.one.
    destruct (Z.compare_spec (-23) e) as [Heq | Hlt | Hgt].
    + change (Pos.compare_cont Eq 8388608 m) with (Pos.compare 8388608 m).
      destruct (Pos.compare_spec 8388608 m) as [Hc | Hc | Hc].
      * split; [discriminate | ]. intros Hr. outside_cases Hr.
        rewrite Hd in Hd0. inversion Hd0; subst num0 k0.
        apply Hval in Hn0. lia.
      * split; [ | reflexivity]. intros _. right. exists num, k.
        split; [exact Hd | ]. apply Hval. right. split; lia.
      * split; [discriminate | ]. intros Hr. outside_cases Hr.
        rewrite Hd in Hd0. inversion Hd0; subst num0 k0.
        apply Hval in Hn0. lia.
    + split; [ | reflexivity]. intros _. right. exists num, k.
      split; [exact Hd | ]. apply Hval. left. exact Hlt.
    + split; [discriminate | ]. intros Hr. outside_cases Hr.
      rewrite Hd in Hd0. inversion Hd0; subst num0 k0.
      apply Hval in Hn0. lia.
Qed.

Lemma checkSampleRate_cases (r : float32) :
  checkSampleRate r = None \/ checkSampleRate r = Some ErrInvalidSampleRate.
Proof.
  unfold checkSampleRate.
  destruct (SFltb r F32.zero || SFltb F32.one r); [right | left]; reflexivity.
Qed.

Lemma checkSampleRate_error_iff (r : float32) :
  F32.valid r = true ->
  (checkSampleRate r = Some ErrInvalidSampleRate <-> below_zero r \/ above_one r).
Proof.
  intros Hv. unfold checkSampleRate.
  rewrite <- ltb_zero_spec, <- (ltb_one_spec r Hv), <- orb_true_iff.
  destruct (SFltb r F32.zero || SFltb F32.one r); split; intros Hr;
    try reflexivity; discriminate.
Qed.

Lemma unit_interval_not_outside (r : float32) :
  in_unit_interval r -> ~ (below_zero r \/ above_one r).
Proof.
  intros (s & num & k & Hd & Hin) [[Hr | (n & j & Hd' & Hn)] | [Hr | (n & j & Hd' & Hn)]];
    try (subst r; discriminate);
    rewrite Hd in Hd'; inversion Hd'; subst; lia.
Qed.

Lemma checkCount_nonpositive (c : Z) :
  c <= 0 -> checkCount c = Some ErrInvalidCount.
Proof.
  intros Hc. unfold checkCount.
  apply Z.leb_le in Hc. rewrite Hc. reflexivity.
Qed.

(** C7. [checkSampleRate r] fails with [ErrInvalidSampleRate] exactly when
    the value of [r] is below zero or above one, and passes otherwise (so
    on every [r] of the interval [0,1]); it fails on the constants 1.5 and
    -0.1.  [checkCount c] fails with [ErrInvalidCount] on every
    non-positive [c], zero included. *)
Theorem checkSampleRate_checkCount_spec (r : float32) (c : Z)
  (Hr : F32.valid r = true) :
  (checkSampleRate r = Some ErrInvalidSampleRate <-> below_zero r \/ above_one r)
  /\ (checkSampleRate r = None <-> ~ (below_zero r \/ above_one r))
  /\ (in_unit_interval r -> checkSampleRate r = None)
  /\ checkSampleRate (F32.of_ratio 3 2) = Some ErrInvalidSampleRate
  /\ checkSampleRate (SFopp (F32.of_ratio 1 10)) = Some ErrInvalidSampleRate
  /\ (c <= 0 -> checkCount c = Some ErrInvalidCount)
  /\ checkCount 0 = Some ErrInvalidCount.
Proof.
  pose proof (checkSampleRate_error_iff r Hr) as Hiff.
  assert (Hnone : checkSampleRate r = None <-> ~ (below_zero r \/ above_one r)).
  { destruct (checkSampleRate_cases r) as [Hn | He].
    - split; [ | intros _; exact Hn].
      intros _ Hout. apply Hiff in Hout. congruence.
    - split; [congruence | ].
      intros Hout. exfalso. apply Hout, Hiff, He. }
  repeat split; try apply Hiff; try apply Hnone; try reflexivity.
  - intros Hin. apply Hnone, unit_interval_not_outside, Hin.
  - apply checkCount_nonpositive.
Qed.

(** ** The formats on a few values *)

Example fmt_d_values :
  Fmt.d 5 = "5" /\ Fmt.d 0 = "0" /\ Fmt.d (-3) = "-3" /\ Fmt.d 8125 = "8125".
Proof. repeat split. Qed.

Example fmt_f_values :
  Fmt.f F32.one = "1.000000"
  /\ Fmt.f (F32.of_ratio 1 10) = "0.100000"
  /\ Fmt.f (F32.of_ratio 1 128) = "0.007812"
  /\ Fmt.f (SFopp (F32.of_ratio 3 2)) = "-1.500000"
  /\ Fmt.f (S754_zero true) = "-0.000000"
  /\ Fmt.f S754_nan = "NaN" /\ Fmt.f (S754_infinity false) = "+Inf".
Proof. repeat split. Qed.

Example f32_constants :
  F32.of_Z 1 = F32.one
  /\ F32.of_ratio 3 2 = S754_finite false 12582912 (-23)
  /\ SFopp (F32.of_ratio 1 10) = S754_finite true 13421773 (-27)
  /\ F32.valid (F32.of_ratio 3 2) = true
  /\ F32.valid (SFopp (F32.of_ratio 1 10)) = true.
Proof. repeat split. Qed.

Example TrimRightDots_values :
  TrimRightDots "app" = "app" /\ TrimRightDots "app.." = "app"
  /\ TrimRightDots "a.b." = "a.b" /\ TrimRightDots "..." = "".
Proof. repeat split. Qed.

Lemma newClient_connected (dial : string -> error + Conn) (addr prefix : string)
  (c : Client.t) :
  Client.newClient dial addr prefix = inr c ->
  Client.conn c <> None /\ Client.buffer c = []
  /\ Client.prefix c = TrimRightDots prefix.
Proof.
  unfold Client.newClient. destruct (dial addr) as [err | k]; [discriminate | ].
  intros Hc. inversion Hc; subst c. cbn. repeat split. discriminate.
Qed.

(** ** The client: [send] and the low-level emitters *)

Section ClientFacts.
Context {SC : Strconv}.

Lemma send_connected (c : Client.t) (k : Conn) (bucket : string) (v : iface)
  (t : string) (r : float32) :
  Client.conn c = Some k ->
  Client.send c bucket v t r =
    (werr k (List.length (wlog k)),
     Client.set_conn c
       (Some (mkConn (app (wlog k) [Client.metric (Client.prefix c) bucket v t r])
                (werr k)))).
Proof.
  intros Hc. unfold Client.send. rewrite Hc. reflexivity.
Qed.

Lemma send_not_connected (c : Client.t) (bucket : string) (v : iface)
  (t : string) (r : float32) :
  Client.conn c = None ->
  Client.send c bucket v t r = (Some ErrNotConnected, c).
Proof.
  intros Hc. unfold Client.send. rewrite Hc. reflexivity.
Qed.

Lemma send_wire (c : Client.t) (bucket : string) (v : iface) (t : string)
  (r : float32) :
  Client.conn c <> None ->
  Client.wire (snd (Client.send c bucket v t r)) =
    app (Client.wire c) [Client.metric (Client.prefix c) bucket v t r].
Proof.
  intros Hc. destruct (Client.conn c) as [k | ] eqn:Hk; [ | congruence].
  rewrite (send_connected c k) by exact Hk.
  unfold Client.wire. rewrite Hk. reflexivity.
Qed.

Lemma send_frame (c : Client.t) (bucket : string) (v : iface) (t : string)
  (r : float32) :
  let c' := snd (Client.send c bucket v t r) in
  Client.buffer c' = Client.buffer c /\ Client.prefix c' = Client.prefix c
  /\ Client.addr c' = Client.addr c
  /\ (Client.conn c <> None -> Client.conn c' <> None).
Proof.
  unfold Client.send. destruct (Client.conn c) as [k | ] eqn:Hk; cbn.
  - repeat split; intros _; discriminate.
  - repeat split. intros Hn. congruence.
Qed.

Lemma metric_shape (p stat : string) (v : iface) (t : string) (r : float32) :
  Client.metric p stat v t r =
    prefixed p stat ++ ":" ++ fmt_v v ++ "|" ++ t ++ "|@" ++ Fmt.f r.
Proof. reflexivity. Qed.

(** Every exit of [IncrWithSampling] but the last leaves the client as it
    was; the last one returns no error. *)
Lemma IncrWithSampling_cases (c : Client.t) (stat : string) (count : Z)
  (r : float32) (g : Rand) :
  (exists err g', Client.IncrWithSampling c stat count r g = (Some err, c, g')
     /\ (err = ErrInvalidSampleRate \/ err = ErrInvalidCount))
  \/ (exists g', Client.IncrWithSampling c stat count r g = (None, c, g'))
  \/ (exists g', Client.IncrWithSampling c stat count r g
                 = (None, Client.addToBuffer c stat count, g')
        /\ checkSampleRate r = None /\ fst (shouldFire r g) = true
        /\ 0 < count).
Proof.
  unfold Client.IncrWithSampling.
  destruct (checkSampleRate_cases r) as [Hr | Hr]; rewrite Hr.
  - destruct (shouldFire r g) as [fire g'] eqn:Hf. destruct fire; cbn [negb].
    + unfold checkCount. destruct (Z.leb_spec count 0) as [Hc | Hc].
      * left. exists ErrInvalidCount, g'. split; [reflexivity | right; reflexivity].
      * right. right. exists g'. repeat split. exact Hc.
    + right. left. exists g'. reflexivity.
  - left. exists ErrInvalidSampleRate, g. split; [reflexivity | left; reflexivity].
Qed.

Lemma addToBuffer_frame (c : Client.t) (stat : string) (count : Z) :
  Client.conn (Client.addToBuffer c stat count) = Client.conn c
  /\ Client.prefix (Client.addToBuffer c stat count) = Client.prefix c.
Proof.
  unfold Client.addToBuffer.
  destruct (Client.bump stat (Client.buffer c)); split; reflexivity.
Qed.

Lemma addToBuffer_wire (c : Client.t) (stat : string) (count : Z) :
  Client.wire (Client.addToBuffer c stat count) = Client.wire c.
Proof.
  unfold Client.wire. destruct (addToBuffer_frame c stat count) as [-> _].
  reflexivity.
Qed.

(** C9. When [IncrWithSampling] returns an error, the error is
    [ErrInvalidSampleRate] or [ErrInvalidCount] and the client, its
    counter buffer included, is exactly as before the call. *)
Theorem IncrWithSampling_error_keeps_buffer (c c' : Client.t) (stat : string)
  (count : Z) (r : float32) (g g' : Rand) (err : error)
  (Hcall : Client.IncrWithSampling c stat count r g = (Some err, c', g')) :
  Client.buffer c' = Client.buffer c /\ c' = c
  /\ (err = ErrInvalidSampleRate \/ err = ErrInvalidCount).
Proof.
  destruct (IncrWithSampling_cases c stat count r g)
    as [(e & g1 & Heq & He) | [(g1 & Heq) | (g1 & Heq & _)]];
    rewrite Heq in Hcall; inversion Hcall; subst.
  repeat split. exact He.
Qed.

(** [DecrWithSampling] leaves the buffer alone on every call, whatever
    its arguments and the state of the connection. *)
Lemma DecrWithSampling_buffer (c : Client.t) (stat : string) (count : Z)
  (r : float32) (g : Rand) :
  Client.buffer (snd (fst (Client.DecrWithSampling c stat count r g)))
  = Client.buffer c.
Proof.
  unfold Client.DecrWithSampling.
  destruct (checkSampleRate r); [reflexivity | ].
  destruct (shouldFire r g) as [[ | ] g']; cbn [negb]; [ | reflexivity].
  destruct (checkCount count); [reflexivity | ].
  pose proof (send_frame c stat (I_int64 (Int64.neg count)) "c" r) as (Hb & _).
  destruct (Client.send c stat (I_int64 (Int64.neg count)) "c" r). exact Hb.
Qed.

(** [IncrWithSampling] writes nothing on every call. *)
Lemma IncrWithSampling_wire (c : Client.t) (stat : string) (count : Z)
  (r : float32) (g : Rand) :
  Client.wire (snd (fst (Client.IncrWithSampling c stat count r g)))
  = Client.wire c.
Proof.
  destruct (IncrWithSampling_cases c stat count r g)
    as [(e & g1 & Heq & _) | [(g1 & Heq) | (g1 & Heq & _)]];
    rewrite Heq; cbn [fst snd]; try reflexivity.
  apply addToBuffer_wire.
Qed.

(** C10. [DecrWithSampling] never changes the counter buffer, on any
    call; with a valid sample rate that fires and a positive count, on a
    connected client, it writes at once the one line of the negated
    count, with tag "c" and the caller's rate.  [IncrWithSampling] never
    writes, on any call: it only buffers. *)
Theorem DecrWithSampling_sends_at_once (c : Client.t) (stat : string)
  (count : Z) (r : float32) (g : Rand)
  (Hconn : Client.conn c <> None)
  (Hrate : checkSampleRate r = None)
  (Hfire : fst (shouldFire r g) = true)
  (Hcount : 0 < count <= Int64.max_int) :
  (forall c0 stat0 count0 r0 g0,
      Client.buffer (snd (fst (Client.DecrWithSampling c0 stat0 count0 r0 g0)))
      = Client.buffer c0)
  /\ (forall c0 stat0 count0 r0 g0,
      Client.wire (snd (fst (Client.IncrWithSampling c0 stat0 count0 r0 g0)))
      = Client.wire c0)
  /\ Client.wire (snd (fst (Client.DecrWithSampling c stat count r g))) =
       app (Client.wire c)
         [prefixed (Client.prefix c) stat ++ ":" ++ Fmt.d (- count) ++ "|c|@" ++ Fmt.f r]
  /\ Client.buffer (snd (fst (Client.IncrWithSampling c stat count r g)))
     = Client.buffer (Client.addToBuffer c stat count).
Proof.
  split; [exact DecrWithSampling_buffer | ].
  split; [exact IncrWithSampling_wire | ].
  unfold Client.DecrWithSampling, Client.IncrWithSampling.
  rewrite Hrate. destruct (shouldFire r g) as [fire g'].
  cbn in Hfire. subst fire. cbn [negb].
  unfold checkCount. destruct (Z.leb_spec count 0) as [Hc | Hc]; [lia | ].
  pose proof (send_wire c stat (I_int64 (Int64.neg count)) "c" r Hconn) as Hw.
  destruct (Client.send c stat (I_int64 (Int64.neg count)) "c" r) as [e c'].
  cbn [fst snd] in *. rewrite Hw.
  split; [ | reflexivity]. f_equal. f_equal. rewrite metric_shape. cbn [fmt_v].
  assert (Hneg : Int64.neg count = - count).
  { unfold Int64.neg, Int64.wrap. unfold Int64.max_int in Hcount.
    rewrite Z.mod_small; lia. }
  rewrite Hneg. reflexivity.
Qed.

Lemma digit_is_digit (z : Z) : is_digit (Fmt.digit z).
Proof.
  unfold is_digit, Fmt.digit.
  pose proof (Z.mod_pos_bound z 10 ltac:(lia)) as Hm.
  rewrite nat_ascii_embedding by lia. lia.
Qed.

Lemma six_shape (n : Z) :
  String.length (Fmt.six n) = 6%nat /\ all_digits (Fmt.six n).
Proof.
  split; [reflexivity | ].
  unfold Fmt.six. cbn [all_digits].
  repeat split; apply digit_is_digit.
Qed.

Lemma round_half_even_nonneg (num den : Z) :
  0 <= num -> 0 < den -> 0 <= Fmt.round_half_even num den.
Proof.
  intros Hn Hd. unfold Fmt.round_half_even.
  assert (0 <= num / den) by (apply Z.div_pos; lia).
  destruct (2 * (num mod den) ?= den); [destruct (Z.even (num / den)) | | ]; lia.
Qed.

(** [%f] of a zero or a finite value: a sign, the integer part, a point
    and six digits. *)
Lemma f_finite_shape (r : spec_float) :
  dyadic r <> None ->
  exists s n, 0 <= n
    /\ Fmt.f r = Fmt.sign s ++ Fmt.d (n / 10 ^ 6) ++ "." ++ Fmt.six n.
Proof.
  intros Hfin. destruct r as [s | s | | s m e]; cbn [dyadic] in Hfin;
    try congruence.
  - exists s, 0. split; [lia | reflexivity].
  - destruct (dyadic_finite s m e) as (num & k & Hd & Hn & Hpos & Hneg).
    exists s, (Fmt.round_half_even (num * 10 ^ 6) (2 ^ k)). split.
    + assert (0 <= k).
      { destruct (Z.le_gt_cases 0 e) as [Hz | Hz];
          [destruct (Hpos Hz) | destruct (Hneg Hz)]; lia. }
      apply round_half_even_nonneg; [lia | apply Z.pow_pos_nonneg; lia].
    + unfold Fmt.f. rewrite Hd. reflexivity.
Qed.

(** C4. On a connected client, [send] hands to the socket exactly the
    text [<prefix>.<stat>:<value>|<typeTag>|@<sampleRate>], without
    [<prefix>.] when the prefix is empty; the sample rate is always
    there and, for a finite rate, has six digits after its point.  The
    encoding of ("app", "user.login.count", 5, "c", 1) is
    "app.user.login.count:5|c|@1.000000". *)
Theorem send_encodes (c : Client.t) (k : Conn) (stat : string) (v : iface)
  (t : string) (r : float32)
  (Hconn : Client.conn c = Some k) :
  let line :=
    (if String.eqb (Client.prefix c) "" then stat
     else Client.prefix c ++ "." ++ stat)
    ++ ":" ++ fmt_v v ++ "|" ++ t ++ "|@" ++ Fmt.f r in
  Client.send c stat v t r =
    (werr k (List.length (wlog k)),
     Client.set_conn c (Some (mkConn (app (wlog k) [line]) (werr k))))
  /\ (Client.prefix c = "" ->
      line = stat ++ ":" ++ fmt_v v ++ "|" ++ t ++ "|@" ++ Fmt.f r)
  /\ (Client.prefix c <> "" ->
      line = (Client.prefix c ++ "." ++ stat)
             ++ ":" ++ fmt_v v ++ "|" ++ t ++ "|@" ++ Fmt.f r)
  /\ (dyadic r <> None ->
      exists s n, 0 <= n
        /\ Fmt.f r = Fmt.sign s ++ Fmt.d (n / 10 ^ 6) ++ "." ++ Fmt.six n
        /\ String.length (Fmt.six n) = 6%nat /\ all_digits (Fmt.six n))
  /\ Client.metric "app" "user.login.count" (I_int64 5) "c" F32.one
     = "app.user.login.count:5|c|@1.000000"
  /\ Client.metric "" "user.login.count" (I_int64 5) "c" F32.one
     = "user.login.count:5|c|@1.000000".
Proof.
  cbv zeta. split; [apply send_connected, Hconn | ].
  split; [intros ->; reflexivity | ].
  split.
  { intros Hp. apply String.eqb_neq in Hp. rewrite Hp. reflexivity. }
  split; [ | split; reflexivity].
  intros Hfin. destruct (f_finite_shape r Hfin) as (s & n & Hn & Hf).
  exists s, n. destruct (six_shape n) as [Hl Hd].
  split; [exact Hn | split; [exact Hf | split; [exact Hl | exact Hd]]].
Qed.

(** C3. On a connected client, a gauge below zero, integer or floating,
    sent with a valid sample rate that fires, writes exactly two lines in
    this order: the reset line [<name>:0|g|@1.000000], then the line of
    the value at the caller's rate. *)
Theorem negative_gauge_two_lines (c : Client.t) (stat : string) (value : Z)
  (x : float64) (r : float32) (g : Rand)
  (Hconn : Client.conn c <> None)
  (Hrate : checkSampleRate r = None)
  (Hfire : fst (shouldFire r g) = true)
  (Hvalue : value < 0)
  (Hx : below_zero x) :
  Client.wire (snd (fst (Client.GaugeWithSampling c stat value r g))) =
    app (Client.wire c)
      [prefixed (Client.prefix c) stat ++ ":0|g|@1.000000";
       prefixed (Client.prefix c) stat ++ ":" ++ Fmt.d value ++ "|g|@" ++ Fmt.f r]
  /\ Client.wire (snd (fst (Client.FGaugeWithSampling c stat x r g))) =
    app (Client.wire c)
      [prefixed (Client.prefix c) stat ++ ":0|g|@1.000000";
       prefixed (Client.prefix c) stat ++ ":" ++ formatFloat64 x ++ "|g|@" ++ Fmt.f r].
Proof.
  apply ltb_zero_spec in Hx. apply Z.ltb_lt in Hvalue.
  unfold Client.GaugeWithSampling, Client.FGaugeWithSampling.
  rewrite Hrate. destruct (shouldFire r g) as [fire g'].
  cbn in Hfire. subst fire. cbn [negb].
  rewrite Hvalue. unfold F32.zero in Hx. rewrite Hx.
  pose proof (send_frame c stat (I_int 0) "g" F32.one) as (_ & Hp & _ & Hc).
  pose proof (send_wire c stat (I_int 0) "g" F32.one Hconn) as Hw.
  set (c1 := snd (Client.send c stat (I_int 0) "g" F32.one)) in *.
  cbv zeta in Hp, Hc. specialize (Hc Hconn).
  pose proof (send_wire c1 stat (I_int64 value) "g" r Hc) as Hw1.
  pose proof (send_wire c1 stat (I_float64 x) "g" r Hc) as Hw2.
  destruct (Client.send c1 stat (I_int64 value) "g" r) as [e1 c2].
  destruct (Client.send c1 stat (I_float64 x) "g" r) as [e2 c3].
  cbn [fst snd] in *. rewrite Hw1, Hw2, Hw, Hp, <- !app_assoc.
  split; reflexivity.
Qed.

End ClientFacts.

(** ** The counter buffer and its flush *)

Section BufferFacts.
Context {SC : Strconv}.

Lemma counterLine_shape (p : string) (b : countBuffer) :
  counterLine p b = prefixed p (name b) ++ ":" ++ Fmt.d (count b) ++ "|c|@1.000000".
Proof. reflexivity. Qed.

Lemma swapBuffer_spec (c : Client.t) :
  fst (Client.swapBuffer c) = Client.buffer c
  /\ Client.buffer (snd (Client.swapBuffer c)) = []
  /\ Client.conn (snd (Client.swapBuffer c)) = Client.conn c
  /\ Client.prefix (snd (Client.swapBuffer c)) = Client.prefix c.
Proof.
  unfold Client.swapBuffer.
  destruct (Client.buffer c) as [ | x b] eqn:Hb; cbn; repeat split; assumption.
Qed.

Lemma swapBuffer_wire (c : Client.t) :
  Client.wire (snd (Client.swapBuffer c)) = Client.wire c.
Proof.
  unfold Client.wire. destruct (swapBuffer_spec c) as (_ & _ & -> & _).
  reflexivity.
Qed.

Lemma sendAll_spec (b : list countBuffer) :
  forall c : Client.t,
    Client.conn c <> None ->
    Client.wire (Client.sendAll c b)
    = app (Client.wire c) (map (counterLine (Client.prefix c)) b)
    /\ Client.buffer (Client.sendAll c b) = Client.buffer c
    /\ Client.prefix (Client.sendAll c b) = Client.prefix c
    /\ Client.conn (Client.sendAll c b) <> None.
Proof.
  induction b as [ | x b IH]; intros c Hc; cbn [Client.sendAll map].
  - rewrite app_nil_r. repeat split. exact Hc.
  - pose proof (send_frame c (name x) (I_int64 (count x)) "c" F32.one)
      as (Hb & Hp & _ & Hc').
    pose proof (send_wire c (name x) (I_int64 (count x)) "c" F32.one Hc) as Hw.
    cbv zeta in Hb, Hp, Hc'.
    destruct (IH _ (Hc' Hc)) as (IHw & IHb & IHp & IHc).
    rewrite IHw, IHb, IHp, Hw, Hb, Hp, <- app_assoc.
    repeat split. exact IHc.
Qed.

Lemma tick_spec (c : Client.t) :
  Client.conn c <> None ->
  Client.buffer (Client.bufferSendLoop_tick c) = []
  /\ Client.wire (Client.bufferSendLoop_tick c)
     = app (Client.wire c) (map (counterLine (Client.prefix c)) (Client.buffer c))
  /\ Client.prefix (Client.bufferSendLoop_tick c) = Client.prefix c
  /\ Client.conn (Client.bufferSendLoop_tick c) <> None.
Proof.
  intros Hc. unfold Client.bufferSendLoop_tick.
  destruct (swapBuffer_spec c) as (Hb & He & Hk & Hp).
  pose proof (swapBuffer_wire c) as Hw.
  destruct (Client.swapBuffer c) as [b c']. cbn [fst snd] in *. subst b.
  assert (Hc' : Client.conn c' <> None) by congruence.
  destruct (sendAll_spec (Client.buffer c) c' Hc') as (Sw & Sb & Sp & Sc).
  rewrite Sw, Sb, Sp, Hw, Hp, He. repeat split. exact Sc.
Qed.

Lemma addAll_frame (adds : list (string * Z)) :
  forall c : Client.t,
    Client.conn (addAll c adds) = Client.conn c
    /\ Client.prefix (addAll c adds) = Client.prefix c
    /\ Client.wire (addAll c adds) = Client.wire c.
Proof.
  induction adds as [ | [stat delta] adds IH]; intros c; cbn [addAll].
  - repeat split.
  - destruct (IH (Client.addToBuffer c stat delta)) as (-> & -> & ->).
    destruct (addToBuffer_frame c stat delta) as (-> & ->).
    rewrite addToBuffer_wire. repeat split.
Qed.

Lemma addToBuffer_buffer (c : Client.t) (stat : string) (delta : Z) :
  Client.buffer (Client.addToBuffer c stat delta)
  = match Client.bump stat (Client.buffer c) with
    | Some b => b
    | None => app (Client.buffer c) [mkCountBuffer stat delta]
    end.
Proof.
  unfold Client.addToBuffer.
  destruct (Client.bump stat (Client.buffer c)); reflexivity.
Qed.

(** The additions see the buffer and nothing else of the client. *)
Lemma addAll_buffer_ext (adds : list (string * Z)) :
  forall a b : Client.t,
    Client.buffer a = Client.buffer b ->
    Client.buffer (addAll a adds) = Client.buffer (addAll b adds).
Proof.
  induction adds as [ | [stat delta] adds IH]; intros a b Hab; cbn [addAll].
  - exact Hab.
  - apply IH. rewrite !addToBuffer_buffer, Hab. reflexivity.
Qed.

Lemma step_inv (w0 : list string) (p : string) (f : flusher) (e : event) :
  flush_inv w0 p f -> flush_inv w0 p (step f e).
Proof.
  destruct f as [c l sw]. unfold flush_inv. cbn [cl local swapped].
  intros (Hc & Hp & Hw). destruct e as [stat count | | ]; cbn [step cl local swapped].
  - destruct (addToBuffer_frame c stat count) as (Hk & Hq).
    rewrite addToBuffer_wire, Hk, Hq. repeat split; assumption.
  - destruct l as [ | x r]; [ | repeat split; assumption].
    destruct (swapBuffer_spec c) as (Hb & _ & Hk & Hq).
    pose proof (swapBuffer_wire c) as Hsw.
    destruct (Client.swapBuffer c) as [b c']. cbn [fst snd cl local swapped] in *.
    rewrite Hk, Hq, Hsw, map_app, app_assoc, <- Hw. cbn [map].
    rewrite app_nil_r. repeat split; assumption.
  - destruct l as [ | x r]; [repeat split; assumption | ].
    pose proof (send_frame c (name x) (I_int64 (count x)) "c" F32.one)
      as (_ & Hq & _ & Hk).
    pose proof (send_wire c (name x) (I_int64 (count x)) "c" F32.one Hc) as Hsw.
    cbv zeta in Hq, Hk. cbn [cl local swapped].
    rewrite Hq, Hsw, <- Hw, Hp, <- app_assoc. cbn [map].
    repeat split. apply Hk, Hc.
Qed.

Lemma run_inv (tr : list event) :
  forall (w0 : list string) (p : string) (f : flusher),
    flush_inv w0 p f -> flush_inv w0 p (run f tr).
Proof.
  unfold run. induction tr as [ | e tr IH]; intros w0 p f Hf; cbn [fold_left].
  - exact Hf.
  - apply IH, step_inv, Hf.
Qed.

(** C5. A flush step on a connected client: the critical section takes
    the whole bucket set and leaves an empty one, without writing; the
    sends that follow write one line per bucket taken, [<name>:<count>]
    with tag "c" and rate 1, in order, and the buffer is empty after the
    step.  Under every interleaving with additions, each bucket swapped
    out is written once or still waits in the loop's local copy, and two
    consecutive flushes write the buckets of the first window, then
    those added since, and nothing else. *)
Theorem flush_step_spec (c : Client.t) (Hconn : Client.conn c <> None) :
  (fst (Client.swapBuffer c) = Client.buffer c
   /\ Client.buffer (snd (Client.swapBuffer c)) = []
   /\ Client.wire (snd (Client.swapBuffer c)) = Client.wire c)
  /\ (forall b : countBuffer,
        counterLine (Client.prefix c) b
        = prefixed (Client.prefix c) (name b) ++ ":" ++ Fmt.d (count b) ++ "|c|@1.000000")
  /\ Client.buffer (Client.bufferSendLoop_tick c) = []
  /\ Client.wire (Client.bufferSendLoop_tick c)
     = app (Client.wire c) (map (counterLine (Client.prefix c)) (Client.buffer c))
  /\ (forall tr : list event,
        let f := run (mkFlusher c [] []) tr in
        app (Client.wire (cl f)) (map (counterLine (Client.prefix c)) (local f))
        = app (Client.wire c) (map (counterLine (Client.prefix c)) (swapped f)))
  /\ (forall adds : list (string * Z),
        let c1 := Client.bufferSendLoop_tick c in
        let c2 := addAll c1 adds in
        Client.wire (Client.bufferSendLoop_tick c2)
        = app (Client.wire c)
            (app (map (counterLine (Client.prefix c)) (Client.buffer c))
               (map (counterLine (Client.prefix c))
                  (Client.buffer (addAll (Client.set_buffer c []) adds))))
        /\ Client.buffer (Client.bufferSendLoop_tick c2) = []).
Proof.
  destruct (tick_spec c Hconn) as (Tb & Tw & Tp & Tc).
  split.
  { destruct (swapBuffer_spec c) as (Hb & He & _).
    repeat split; try assumption. apply swapBuffer_wire. }
  split; [intros b; apply counterLine_shape | ].
  split; [exact Tb | ].
  split; [exact Tw | ].
  split.
  { intros tr. cbv zeta.
    assert (Hi : flush_inv (Client.wire c) (Client.prefix c) (mkFlusher c [] [])).
    { unfold flush_inv. cbn. repeat split. exact Hconn. }
    apply (run_inv tr) in Hi. destruct Hi as (_ & _ & Hi). exact Hi. }
  intros adds. cbv zeta.
  set (c1 := Client.bufferSendLoop_tick c) in *.
  destruct (addAll_frame adds c1) as (Ak & Ap & Aw).
  assert (Hc2 : Client.conn (addAll c1 adds) <> None) by congruence.
  destruct (tick_spec _ Hc2) as (Ub & Uw & _).
  rewrite Uw, Aw, Ap, Tw, Tp, <- app_assoc. split; [ | exact Ub].
  do 3 f_equal.
  apply addAll_buffer_ext. rewrite Tb. reflexivity.
Qed.

End BufferFacts.

(** ** What the buffer holds for a name *)

Lemma pending_notin (stat : string) (b : list countBuffer) :
  ~ In stat (names b) -> pending stat b = 0.
Proof.
  induction b as [ | x b IH]; cbn [pending names map]; intros Hn; [reflexivity | ].
  destruct (String.eqb_spec (name x) stat) as [He | He].
  - exfalso. apply Hn. left. exact He.
  - rewrite IH; [reflexivity | ]. intros Hi. apply Hn. right. exact Hi.
Qed.

Lemma pending_app (stat : string) (a b : list countBuffer) :
  pending stat (app a b) = pending stat a + pending stat b.
Proof.
  induction a as [ | x a IH]; cbn [pending app]; [reflexivity | ].
  rewrite IH. lia.
Qed.

Lemma bump_None (stat : string) (b : list countBuffer) :
  Client.bump stat b = None <-> ~ In stat (names b).
Proof.
  induction b as [ | x b IH]; cbn [Client.bump names map In].
  - split; [intros _ [] | reflexivity].
  - destruct (String.eqb_spec (name x) stat) as [He | He].
    + split; [discriminate | ]. intros Hn. exfalso. apply Hn. left. exact He.
    + destruct (Client.bump stat b) as [b' | ]; cbn [option_map].
      * split; [discriminate | ]. intros Hn. exfalso.
        assert (Hb : ~ In stat (names b)) by (intros Hi; apply Hn; right; exact Hi).
        apply IH in Hb. discriminate.
      * split; [ | reflexivity]. intros _ [Hx | Hi]; [exact (He Hx) | ].
        destruct IH as [IH _]. exact (IH eq_refl Hi).
Qed.

(** The slip of [addToBuffer]: on a bucket that exists, the count goes up
    by one, whatever the delta of the call. *)
Lemma bump_Some (stat : string) (b b' : list countBuffer) :
  NoDup (names b) -> Client.bump stat b = Some b' ->
  names b' = names b
  /\ pending stat b' = Int64.add (pending stat b) 1
  /\ (forall other, other <> stat -> pending other b' = pending other b).
Proof.
  revert b'. induction b as [ | x b IH]; intros b' Hnd Hb; cbn [Client.bump] in Hb;
    [discriminate | ].
  cbn [names map] in Hnd. apply NoDup_cons_iff in Hnd as [Hx Hnd].
  destruct (String.eqb_spec (name x) stat) as [He | He].
  - inversion Hb; subst b'; clear Hb. cbn [names map pending name count].
    rewrite He in Hx. rewrite (pending_notin stat b Hx).
    destruct (String.eqb_spec (name x) stat) as [_ | Hne]; [ | contradiction].
    rewrite !Z.add_0_r. repeat split.
    intros other Ho. destruct (String.eqb_spec (name x) other); [congruence | reflexivity].
  - destruct (Client.bump stat b) as [b1 | ]; cbn [option_map] in Hb; [ | discriminate].
    inversion Hb; subst b'; clear Hb.
    destruct (IH b1 Hnd eq_refl) as (Hn & Hp & Ho).
    cbn [names map pending]. fold (names b1) (names b). rewrite Hn, Hp.
    destruct (String.eqb_spec (name x) stat) as [Heq | _]; [contradiction | ].
    repeat split. intros other Hne. rewrite (Ho other Hne). reflexivity.
Qed.

Lemma addToBuffer_pending (c : Client.t) (stat : string) (delta : Z) :
  NoDup (names (Client.buffer c)) ->
  let c' := Client.addToBuffer c stat delta in
  NoDup (names (Client.buffer c'))
  /\ (In stat (names (Client.buffer c)) ->
      pending stat (Client.buffer c') = Int64.add (pending stat (Client.buffer c)) 1)
  /\ (~ In stat (names (Client.buffer c)) ->
      pending stat (Client.buffer c') = delta)
  /\ (forall other, other <> stat ->
      pending other (Client.buffer c') = pending other (Client.buffer c)).
Proof.
  intros Hnd. cbv zeta. unfold Client.addToBuffer.
  destruct (Client.bump stat (Client.buffer c)) as [b' | ] eqn:Hb;
    cbn [Client.set_buffer Client.buffer].
  - destruct (bump_Some _ _ _ Hnd Hb) as (Hn & Hp & Ho).
    rewrite Hn. repeat split; try assumption.
    + intros _. exact Hp.
    + intros Hni. apply bump_None in Hni. congruence.
  - apply bump_None in Hb. repeat split.
    + unfold names. rewrite map_app. fold (names (Client.buffer c)). cbn [map name].
      apply NoDup_app; [exact Hnd | repeat constructor; intros [] | ].
      intros a Ha [Hs | []]. subst a. exact (Hb Ha).
    + intros Hi. contradiction.
    + intros _. rewrite pending_app, (pending_notin _ _ Hb). cbn [pending name count].
      rewrite String.eqb_refl. lia.
    + intros other Ho. rewrite pending_app. cbn [pending name count].
      destruct (String.eqb_spec stat other); [congruence | lia].
Qed.

Lemma sumDeltas_unit_nonneg (stat : string) (adds : list (string * Z)) :
  Forall (fun a => snd a = 1) adds -> 0 <= sumDeltas stat adds.
Proof.
  induction 1 as [ | [n d] adds Hd _ IH]; cbn [sumDeltas]; [lia | ].
  cbn in Hd. subst d. destruct (String.eqb n stat); lia.
Qed.

(** Where the sum of the deltas is what the buffer holds: every delta is
    one and the count stays an [int64]. *)
Lemma addAll_unit_deltas (stat : string) (adds : list (string * Z)) :
  forall c : Client.t,
    NoDup (names (Client.buffer c)) ->
    Forall (fun a => snd a = 1) adds ->
    Int64.min_int <= pending stat (Client.buffer c) ->
    pending stat (Client.buffer c) + sumDeltas stat adds <= Int64.max_int ->
    pending stat (Client.buffer (addAll c adds))
    = pending stat (Client.buffer c) + sumDeltas stat adds.
Proof.
  induction adds as [ | [n d] adds IH]; intros c Hnd Hu Hlo Hhi;
    cbn [addAll sumDeltas] in *; [lia | ].
  inversion Hu as [ | a l Hd Hu']; subst. cbn in Hd. subst d.
  pose proof (sumDeltas_unit_nonneg stat adds Hu') as Hs.
  destruct (addToBuffer_pending c n 1 Hnd) as (Hnd' & Hin & Hout & Hoth).
  cbv zeta in *.
  destruct (String.eqb_spec n stat) as [He | He].
  - subst n.
    assert (Hp : pending stat (Client.buffer (Client.addToBuffer c stat 1))
                 = pending stat (Client.buffer c) + 1).
    { destruct (in_dec string_dec stat (names (Client.buffer c))) as [Hi | Hi].
      - rewrite (Hin Hi). unfold Int64.add, Int64.wrap.
        unfold Int64.min_int, Int64.max_int in *. rewrite Z.mod_small; lia.
      - rewrite (Hout Hi), (pending_notin _ _ Hi). reflexivity. }
    rewrite IH; try assumption; rewrite Hp; lia.
  - assert (He' : stat <> n) by congruence.
    rewrite IH; try assumption; rewrite (Hoth stat He'); lia.
Qed.

(** ** The package-level emitters and the dispatcher *)

Section PackageFacts.
Context {SC : Strconv}.

(** C2. A second [addToBuffer] on a bucket that exists adds one and not
    its delta: after [add("hits", 5)] twice on an empty buffer the bucket
    holds 6 where the deltas sum to 10, and the flush line carries 6. *)
Theorem second_add_ignores_delta :
  let adds := [("hits", 5); ("hits", 5)] in
  let c := addAll (fresh_client "") adds in
  Client.buffer c = [mkCountBuffer "hits" 6]
  /\ pending "hits" (Client.buffer c) = 6
  /\ sumDeltas "hits" adds = 10
  /\ Client.wire (Client.bufferSendLoop_tick c) = ["hits:6|c|@1.000000"].
Proof. repeat split. Qed.

(** The emitters that check the configuration themselves do nothing
    before [Setup] and when [Enable] is false. *)
Lemma guarded_emitters_noop (w : World) (stat : string) (n : Z) (x : float64)
  (t1 t2 : Z) (r : float32) :
  (config w = None \/ exists cfg, config w = Some cfg /\ Enable cfg = false) ->
  IncrWithSampling w stat n r = Returned w
  /\ GaugeWithSampling w stat n r = Returned w
  /\ Gauge w stat n = Returned w
  /\ FGaugeWithSampling w stat x r = Returned w
  /\ FGauge w stat x = Returned w
  /\ TimingByValueWithSampling w stat n r = Returned w
  /\ TimingByValue w stat n = Returned w
  /\ TimingWithSampling w stat t1 t2 r = Returned w
  /\ Timing w stat t1 t2 = Returned w.
Proof.
  unfold Timing, TimingWithSampling, TimingByValue, TimingByValueWithSampling,
    FGauge, FGaugeWithSampling, Gauge, GaugeWithSampling, IncrWithSampling.
  intros [Hc | (cfg & Hc & He)]; rewrite Hc; [repeat split | ].
  rewrite He. repeat split.
Qed.

(** [IncrByVal] checks that [Setup] was called, and that only. *)
Lemma IncrByVal_before_Setup (w : World) (stat : string) (n : Z) :
  config w = None -> IncrByVal w stat n = Returned w.
Proof. intros Hc. unfold IncrByVal. rewrite Hc. reflexivity. Qed.

(** C1. [Incr] and [IncrByVal] miss the checks of the other emitters:
    before [Setup], [Incr] panics on the nil configuration; with
    [Enable] false, [Incr] and [IncrByVal] make the client, buffer the
    counter, and the next flush writes it. *)
Theorem Incr_IncrByVal_unguarded (g : Rand) (net : string -> error + Conn) :
  Incr (initial g net) "user.login.count"
  = Panicked (mkWorld None "" true None false None false g net)
  /\ let off := mkConfig "127.0.0.1" 8125 "app" false F32.one in
     let up := fun _ : string => inr (mkConn [] (fun _ => None)) in
     let w0 := Setup (initial g up) off in
     (exists w, Incr w0 "user.login.count" = Returned w
        /\ option_map Client.buffer (defaultClient w)
           = Some [mkCountBuffer "user.login.count" 1]
        /\ option_map Client.wire (defaultClient (flushTick w))
           = Some ["app.user.login.count:1|c|@1.000000"])
     /\ (exists w, IncrByVal w0 "user.login.count" 5 = Returned w
        /\ option_map Client.buffer (defaultClient w)
           = Some [mkCountBuffer "user.login.count" 5]
        /\ option_map Client.wire (defaultClient (flushTick w))
           = Some ["app.user.login.count:5|c|@1.000000"]).
Proof.
  split; [reflexivity | ]. cbv zeta.
  split; eexists; (split; [reflexivity | split; reflexivity]).
Qed.





(** The first call panics only when the client cannot be made. *)
Lemma sendAsync_panics (w w' : World) (stat : string) (val : iface)
  (t : metricType) (r : float32) :
  sendAsync w stat val t r = Panicked w' ->
  sendLoopOnce w = false /\ once w = false
  /\ (config w = None \/ exists err, dial w (addr w) = inl err).
Proof.
  unfold sendAsync. destruct (sendLoopOnce w); [discriminate | ].
  unfold getClient. cbn [once config dial addr].
  destruct (once w); [discriminate | ].
  destruct (config w) as [cfg | ]; [ | intros _; repeat split; left; reflexivity].
  unfold Client.newClient.
  destruct (dial w (addr w)) as [err | k]; [ | discriminate].
  intros _. repeat split. right. exists err. reflexivity.
Qed.

(** The dispatcher's invariant holds before [Setup], is kept by [Setup]
    and by every step of the worker. *)
Lemma dispatcher_wf_initial (g : Rand) (net : string -> error + Conn) :
  dispatcher_wf (initial g net).
Proof. split; [discriminate | apply Nat.le_0_l]. Qed.

Lemma dispatcher_wf_Setup (w : World) (cfg : Config) :
  dispatcher_wf w -> dispatcher_wf (Setup w cfg).
Proof. intros Hwf. exact Hwf. Qed.

Lemma call_frame (client : option Client.t)
  (m : Client.t -> Rand -> option error * Client.t * Rand)
  (on_nil : Rand -> option (option error) * Rand) (w : World) :
  exists w', (call client m on_nil w = Returned w' \/ call client m on_nil w = Panicked w')
    /\ sendCh w' = sendCh w /\ sendLoopOnce w' = sendLoopOnce w.
Proof.
  unfold call. destruct client as [c | ].
  - destruct (m c (fireRand w)) as [[e c'] g']. eexists. split; [left; reflexivity | ].
    split; reflexivity.
  - destruct (on_nil (fireRand w)) as [[e | ] g']; eexists;
      (split; [try (left; reflexivity); right; reflexivity | split; reflexivity]).
Qed.

Lemma sendEx_frame (client : option Client.t) (stat : string) (val : iface)
  (t : metricType) (r : float32) (w : World) :
  exists w', (sendEx client stat val t r w = Returned w'
              \/ sendEx client stat val t r w = Panicked w')
    /\ sendCh w' = sendCh w /\ sendLoopOnce w' = sendLoopOnce w.
Proof.
  unfold sendEx. destruct (String.eqb stat "").
  - exists w. split; [left; reflexivity | split; reflexivity].
  - destruct t, val; try apply call_frame;
      exists w; (split; [left; reflexivity | split; reflexivity]).
Qed.

Lemma workerStep_wf (w w' : World) :
  dispatcher_wf w -> workerStep w = Returned w' -> dispatcher_wf w'.
Proof.
  intros [Hch Hlen]. unfold workerStep.
  destruct (worker w); [ | intros Hr; inversion Hr; subst; split; assumption].
  destruct (sendCh w) as [[ | item q] | ] eqn:Hq;
    try (intros Hr; inversion Hr; subst; split; [rewrite Hq | ]; assumption).
  destruct (sendEx_frame (defaultClient (set_sendCh w (Some q))) (stat item)
              (val item) (t item) (sampleRate item) (set_sendCh w (Some q)))
    as (w1 & Hw1 & Hc & Hl).
  intros Hr. assert (w1 = w') by (destruct Hw1 as [Hw1 | Hw1]; congruence).
  subst w1. unfold dispatcher_wf, queue in *. rewrite Hc. cbn [sendCh set_sendCh].
  rewrite Hq in Hlen. cbn [List.length] in Hlen. split; [discriminate | lia].
Qed.

Lemma sendEx_empty_name (client : option Client.t) (val : iface)
  (t : metricType) (r : float32) (w : World) :
  sendEx client "" val t r w = Returned w.
Proof. reflexivity. Qed.

(** C8. An item with the empty name that the worker takes from the
    queue is dropped: [sendEx] returns at once, so the step only removes
    the item; the client (buffer and socket) and the random source are
    as before, and nothing panics. *)
Theorem empty_name_dropped (w : World) (val : iface) (t : metricType)
  (r : float32) (q : list sendItem)
  (Hworker : worker w = true)
  (Hqueue : sendCh w = Some (mkSendItem "" val t r :: q)) :
  workerStep w = Returned (set_sendCh w (Some q))
  /\ defaultClient (set_sendCh w (Some q)) = defaultClient w
  /\ fireRand (set_sendCh w (Some q)) = fireRand w
  /\ (forall client w0, sendEx client "" val t r w0 = Returned w0).
Proof.
  unfold workerStep. rewrite Hworker, Hqueue. cbn [stat].
  repeat split.
Qed.

End PackageFacts.

(** * Instances of the theorems *)

Lemma checkSampleRate_checkCount_spec_witness :
  F32.valid (F32.of_ratio 1 2) = true
  /\ checkSampleRate (F32.of_ratio 1 2) = None
  /\ checkCount 0 = Some ErrInvalidCount.
Proof.
  assert (Hv : F32.valid (F32.of_ratio 1 2) = true) by reflexivity.
  pose proof (checkSampleRate_checkCount_spec (F32.of_ratio 1 2) 0 Hv)
    as (_ & _ & Hin & _ & _ & Hc & _).
  split; [exact Hv | split].
  - apply Hin. exists false, 8388608, 24. split; [reflexivity | right].
    split; [reflexivity | vm_compute; discriminate].
  - apply Hc. lia.
Defined.

Lemma IncrWithSampling_error_keeps_buffer_witness :
  Client.IncrWithSampling (fresh_client "app") "hits" 0
    F32.one exampleRand
  = (Some ErrInvalidCount, fresh_client "app", exampleRand)
  /\ Client.buffer (fresh_client "app") = Client.buffer (fresh_client "app")
  /\ fresh_client "app" = fresh_client "app"
  /\ (ErrInvalidCount = ErrInvalidSampleRate \/ ErrInvalidCount = ErrInvalidCount).
Proof.
  assert (Hcall : Client.IncrWithSampling
                    (fresh_client "app") "hits" 0 F32.one exampleRand
                  = (Some ErrInvalidCount, fresh_client "app", exampleRand))
    by reflexivity.
  split; [exact Hcall | ].
  exact (IncrWithSampling_error_keeps_buffer _ _ _ _ _ _ _ _ Hcall).
Defined.

Lemma DecrWithSampling_sends_at_once_witness :
  Client.conn (fresh_client "app") <> None
  /\ checkSampleRate F32.one = None
  /\ fst (shouldFire F32.one exampleRand) = true
  /\ 0 < 2 <= Int64.max_int
  /\ Client.wire (snd (fst (Client.DecrWithSampling (SC := exampleStrconv)
                              (fresh_client "app") "hits" 2 F32.one exampleRand)))
     = ["app.hits:-2|c|@1.000000"]
  /\ Client.buffer (snd (fst (Client.DecrWithSampling (SC := exampleStrconv)
                                (fresh_client "app") "hits" 2 F32.one exampleRand)))
     = [].
Proof.
  assert (Hconn : Client.conn (fresh_client "app") <> None) by discriminate.
  assert (Hrate : checkSampleRate F32.one = None) by reflexivity.
  assert (Hfire : fst (shouldFire F32.one exampleRand) = true) by reflexivity.
  assert (Hcount : 0 < 2 <= Int64.max_int) by (unfold Int64.max_int; lia).
  pose proof (DecrWithSampling_sends_at_once (SC := exampleStrconv)
                (fresh_client "app") "hits" 2 F32.one exampleRand
                Hconn Hrate Hfire Hcount) as (Hbuf & _ & Hwire & _).
  split; [exact Hconn | ]. split; [exact Hrate | ]. split; [exact Hfire | ].
  split; [exact Hcount | ]. split; [exact Hwire | apply Hbuf].
Defined.

Lemma send_encodes_witness :
  Client.conn (fresh_client "app") = Some (mkConn [] (fun _ => None))
  /\ Client.wire (snd (Client.send (SC := exampleStrconv) (fresh_client "app")
                         "user.login.count" (I_int64 5) "c" F32.one))
     = ["app.user.login.count:5|c|@1.000000"].
Proof.
  assert (Hconn : Client.conn (fresh_client "app") = Some (mkConn [] (fun _ => None)))
    by reflexivity.
  split; [exact Hconn | ].
  pose proof (send_encodes (SC := exampleStrconv) (fresh_client "app") _
                "user.login.count" (I_int64 5) "c" F32.one Hconn) as (Hsend & _).
  rewrite Hsend. reflexivity.
Defined.

Lemma negative_gauge_two_lines_witness :
  Client.conn (fresh_client "app") <> None
  /\ checkSampleRate F32.one = None
  /\ fst (shouldFire F32.one exampleRand) = true
  /\ -3 < 0
  /\ below_zero (F64.of_Z (-3))
  /\ Client.wire (snd (fst (Client.GaugeWithSampling (SC := exampleStrconv)
                              (fresh_client "app") "temp" (-3) F32.one exampleRand)))
     = ["app.temp:0|g|@1.000000"; "app.temp:-3|g|@1.000000"]
  /\ Client.wire (snd (fst (Client.FGaugeWithSampling (SC := exampleStrconv)
                              (fresh_client "app") "temp" (F64.of_Z (-3)) F32.one
                              exampleRand)))
     = ["app.temp:0|g|@1.000000"; "app.temp:-3|g|@1.000000"].
Proof.
  assert (Hconn : Client.conn (fresh_client "app") <> None) by discriminate.
  assert (Hrate : checkSampleRate F32.one = None) by reflexivity.
  assert (Hfire : fst (shouldFire F32.one exampleRand) = true) by reflexivity.
  assert (Hvalue : -3 < 0) by lia.
  assert (Hx : below_zero (F64.of_Z (-3))).
  { right. eexists. eexists. split; [reflexivity | reflexivity]. }
  split; [exact Hconn | ]. split; [exact Hrate | ]. split; [exact Hfire | ].
  split; [exact Hvalue | ]. split; [exact Hx | ].
  exact (negative_gauge_two_lines (SC := exampleStrconv) (fresh_client "app")
           "temp" (-3) (F64.of_Z (-3)) F32.one exampleRand
           Hconn Hrate Hfire Hvalue Hx).
Defined.

Lemma flush_step_spec_witness :
  let c := addAll (fresh_client "app") [("a", 1); ("b", 2); ("a", 1)] in
  Client.conn c <> None
  /\ Client.buffer (Client.bufferSendLoop_tick (SC := exampleStrconv) c) = []
  /\ Client.wire (Client.bufferSendLoop_tick (SC := exampleStrconv) c)
     = ["app.a:2|c|@1.000000"; "app.b:2|c|@1.000000"].
Proof.
  cbv zeta.
  assert (Hconn : Client.conn (addAll (fresh_client "app")
                                 [("a", 1); ("b", 2); ("a", 1)]) <> None)
    by discriminate.
  split; [exact Hconn | ].
  pose proof (flush_step_spec (SC := exampleStrconv) _ Hconn)
    as (_ & _ & Hbuf & Hwire & _).
  split; [exact Hbuf | exact Hwire].
Defined.


Lemma empty_name_dropped_witness :
  let w := mkWorld None "" true (Some (fresh_client "app")) true
             (Some [mkSendItem "" (I_int64 7) metricTypeGauge F32.one])
             true exampleRand exampleNet in
  worker w = true
  /\ sendCh w = Some [mkSendItem "" (I_int64 7) metricTypeGauge F32.one]
  /\ workerStep (SC := exampleStrconv) w = Returned (set_sendCh w (Some [])).
Proof.
  cbv zeta.
  split; [reflexivity | split; [reflexivity | ]].
  apply (empty_name_dropped (SC := exampleStrconv)
           (mkWorld None "" true (Some (fresh_client "app")) true
              (Some [mkSendItem "" (I_int64 7) metricTypeGauge F32.one])
              true exampleRand exampleNet)
           (I_int64 7) metricTypeGauge F32.one [] eq_refl eq_refl).
Defined.

(** * Further properties of the code *)

(** ** The low-level emitters on their edges *)

Section EmitterEdges.
Context {SC : Strconv}.

(** X1. With a sample rate that [checkSampleRate] refuses, each of the five
    [*WithSampling] methods returns [ErrInvalidSampleRate] before anything
    else: the client is untouched and no random draw is consumed. *)
Theorem invalid_rate_rejected (c : Client.t) (stat : string) (n : Z)
  (x : float64) (r : float32) (g : Rand)
  (Hr : checkSampleRate r <> None) :
  Client.IncrWithSampling c stat n r g = (Some ErrInvalidSampleRate, c, g)
  /\ Client.DecrWithSampling c stat n r g = (Some ErrInvalidSampleRate, c, g)
  /\ Client.TimingWithSampling c stat n r g = (Some ErrInvalidSampleRate, c, g)
  /\ Client.GaugeWithSampling c stat n r g = (Some ErrInvalidSampleRate, c, g)
  /\ Client.FGaugeWithSampling c stat x r g = (Some ErrInvalidSampleRate, c, g).
Proof.
  unfold Client.IncrWithSampling, Client.DecrWithSampling,
    Client.TimingWithSampling, Client.GaugeWithSampling,
    Client.FGaugeWithSampling.
  destruct (checkSampleRate_cases r) as [Hn | He]; [congruence | ].
  rewrite He. repeat split.
Qed.

(** X2. When the sampling does not fire, each of the five methods returns
    nil and leaves the client as it was, whatever the count or the value
    (a non-positive count is not even reported); only the random source
    moves on. *)
Theorem not_fired_is_silent (c : Client.t) (stat : string) (n : Z)
  (x : float64) (r : float32) (g : Rand)
  (Hr : checkSampleRate r = None)
  (Hf : fst (shouldFire r g) = false) :
  let g' := snd (shouldFire r g) in
  Client.IncrWithSampling c stat n r g = (None, c, g')
  /\ Client.DecrWithSampling c stat n r g = (None, c, g')
  /\ Client.TimingWithSampling c stat n r g = (None, c, g')
  /\ Client.GaugeWithSampling c stat n r g = (None, c, g')
  /\ Client.FGaugeWithSampling c stat x r g = (None, c, g').
Proof.
  unfold Client.IncrWithSampling, Client.DecrWithSampling,
    Client.TimingWithSampling, Client.GaugeWithSampling,
    Client.FGaugeWithSampling.
  rewrite Hr. destruct (shouldFire r g) as [fire g1]. cbn in Hf. subst fire.
  cbn. repeat split.
Qed.

Lemma leb_nan (x : spec_float) : SFleb x S754_nan = false.
Proof. destruct x as [s | s | | s m e]; reflexivity. Qed.

(** X3. A NaN sample rate passes [checkSampleRate] (both of its comparisons
    are false) and is not the rate 1, so [shouldFire] takes a draw, and no
    draw is below NaN: every emitter then returns nil and does nothing. *)
Theorem nan_rate_never_fires (c : Client.t) (stat : string) (n : Z)
  (x : float64) (g : Rand) :
  let g' := mkRand (draws g) (S (drawn g)) in
  checkSampleRate S754_nan = None
  /\ shouldFire S754_nan g = (false, g')
  /\ Client.IncrWithSampling c stat n S754_nan g = (None, c, g')
  /\ Client.DecrWithSampling c stat n S754_nan g = (None, c, g')
  /\ Client.TimingWithSampling c stat n S754_nan g = (None, c, g')
  /\ Client.GaugeWithSampling c stat n S754_nan g = (None, c, g')
  /\ Client.FGaugeWithSampling c stat x S754_nan g = (None, c, g').
Proof.
  assert (Hs : shouldFire S754_nan g = (false, mkRand (draws g) (S (drawn g)))).
  { unfold shouldFire, Float32. cbn. rewrite leb_nan. reflexivity. }
  unfold Client.IncrWithSampling, Client.DecrWithSampling,
    Client.TimingWithSampling, Client.GaugeWithSampling,
    Client.FGaugeWithSampling.
  change (checkSampleRate S754_nan) with (@None error).
  rewrite Hs. cbn. repeat split.
Qed.

(** X4. [TimingWithSampling] checks nothing about the delta: on a
    connected client, with a valid rate that fires, it writes the one line
    [<name>:<delta>|ms|@<rate>], for a negative delta too, and never
    touches the counter buffer. *)
Theorem timing_writes_one_line (c : Client.t) (stat : string) (delta : Z)
  (r : float32) (g : Rand)
  (Hconn : Client.conn c <> None)
  (Hrate : checkSampleRate r = None)
  (Hfire : fst (shouldFire r g) = true) :
  let c' := snd (fst (Client.TimingWithSampling c stat delta r g)) in
  Client.wire c' =
    app (Client.wire c)
      [prefixed (Client.prefix c) stat ++ ":" ++ Fmt.d delta ++ "|ms|@" ++ Fmt.f r]
  /\ Client.buffer c' = Client.buffer c.
Proof.
  cbv zeta. unfold Client.TimingWithSampling.
  rewrite Hrate. destruct (shouldFire r g) as [fire g'].
  cbn in Hfire. subst fire. cbn [negb].
  pose proof (send_frame c stat (I_int64 delta) "ms" r) as (Hb & _).
  pose proof (send_wire c stat (I_int64 delta) "ms" r Hconn) as Hw.
  destruct (Client.send c stat (I_int64 delta) "ms" r) as [e c'].
  cbn [fst snd] in *. rewrite Hw. split; [reflexivity | exact Hb].
Qed.

(** X5. A gauge that is not below zero writes a single line, without the
    reset line: an integer [value >= 0], and a float that is not below
    zero, which includes NaN and the negative zero. *)
Theorem nonnegative_gauge_one_line (c : Client.t) (stat : string) (value : Z)
  (x : float64) (r : float32) (g : Rand)
  (Hconn : Client.conn c <> None)
  (Hrate : checkSampleRate r = None)
  (Hfire : fst (shouldFire r g) = true)
  (Hvalue : 0 <= value)
  (Hx : ~ below_zero x) :
  Client.wire (snd (fst (Client.GaugeWithSampling c stat value r g))) =
    app (Client.wire c)
      [prefixed (Client.prefix c) stat ++ ":" ++ Fmt.d value ++ "|g|@" ++ Fmt.f r]
  /\ Client.wire (snd (fst (Client.FGaugeWithSampling c stat x r g))) =
    app (Client.wire c)
      [prefixed (Client.prefix c) stat ++ ":" ++ formatFloat64 x ++ "|g|@" ++ Fmt.f r].
Proof.
  assert (Hx' : SFltb x (S754_zero false) = false).
  { destruct (SFltb x (S754_zero false)) eqn:Hl; [ | reflexivity].
    exfalso. apply Hx, ltb_zero_spec. exact Hl. }
  apply Z.ltb_ge in Hvalue.
  unfold Client.GaugeWithSampling, Client.FGaugeWithSampling.
  rewrite Hrate. destruct (shouldFire r g) as [fire g'].
  cbn in Hfire. subst fire. cbn [negb]. rewrite Hvalue, Hx'.
  pose proof (send_wire c stat (I_int64 value) "g" r Hconn) as Hw1.
  pose proof (send_wire c stat (I_float64 x) "g" r Hconn) as Hw2.
  destruct (Client.send c stat (I_int64 value) "g" r) as [e1 c1].
  destruct (Client.send c stat (I_float64 x) "g" r) as [e2 c2].
  cbn [fst snd] in *. rewrite Hw1, Hw2. split; reflexivity.
Qed.

(** X6. The error a gauge call returns is that of its last write: for a
    value below zero the result of the reset write is discarded, so a
    failure of the reset line alone goes unreported. *)
Theorem gauge_error_is_last_write (c : Client.t) (k : Conn) (stat : string)
  (value : Z) (r : float32) (g : Rand)
  (Hconn : Client.conn c = Some k)
  (Hrate : checkSampleRate r = None)
  (Hfire : fst (shouldFire r g) = true) :
  fst (fst (Client.GaugeWithSampling c stat value r g))
  = werr k (if value <? 0 then S (List.length (wlog k)) else List.length (wlog k)).
Proof.
  unfold Client.GaugeWithSampling.
  rewrite Hrate. destruct (shouldFire r g) as [fire g'].
  cbn in Hfire. subst fire. cbn [negb].
  destruct (value <? 0).
  - rewrite (send_connected c k) by exact Hconn. cbn [snd].
    erewrite send_connected by reflexivity.
    cbn [fst wlog werr]. rewrite length_app. cbn [List.length].
    rewrite Nat.add_1_r. reflexivity.
  - rewrite (send_connected c k) by exact Hconn. reflexivity.
Qed.

Lemma sendAll_not_connected (b : list countBuffer) (c : Client.t) :
  Client.conn c = None -> Client.sendAll c b = c.
Proof.
  intros Hc. induction b as [ | x b IH]; cbn [Client.sendAll]; [reflexivity | ].
  rewrite send_not_connected by exact Hc. exact IH.
Qed.

(** X7. On a client without a socket the emitters that write return
    [ErrNotConnected] and change nothing, while [IncrWithSampling] still
    buffers and returns nil; a flush then empties the buffer without
    writing, so those counters are discarded. *)
Theorem not_connected_behaviour (c : Client.t) (stat : string) (n : Z)
  (x : float64) (r : float32) (g : Rand)
  (Hconn : Client.conn c = None)
  (Hrate : checkSampleRate r = None)
  (Hfire : fst (shouldFire r g) = true)
  (Hn : 0 < n) :
  let g' := snd (shouldFire r g) in
  Client.DecrWithSampling c stat n r g = (Some ErrNotConnected, c, g')
  /\ Client.TimingWithSampling c stat n r g = (Some ErrNotConnected, c, g')
  /\ Client.GaugeWithSampling c stat n r g = (Some ErrNotConnected, c, g')
  /\ Client.GaugeWithSampling c stat (- n) r g = (Some ErrNotConnected, c, g')
  /\ Client.FGaugeWithSampling c stat x r g = (Some ErrNotConnected, c, g')
  /\ Client.IncrWithSampling c stat n r g = (None, Client.addToBuffer c stat n, g')
  /\ Client.bufferSendLoop_tick (Client.addToBuffer c stat n)
     = Client.set_buffer c [].
Proof.
  cbv zeta.
  unfold Client.IncrWithSampling, Client.DecrWithSampling,
    Client.TimingWithSampling, Client.GaugeWithSampling,
    Client.FGaugeWithSampling.
  rewrite Hrate. destruct (shouldFire r g) as [fire g'].
  cbn in Hfire. subst fire. cbn [negb snd].
  unfold checkCount. destruct (Z.leb_spec n 0) as [Hle | _]; [lia | ].
  assert (Hs : forall b v t0 r0,
             Client.send c b v t0 r0 = (Some ErrNotConnected, c))
    by (intros; apply send_not_connected, Hconn).
  rewrite !Hs. cbn [snd].
  assert (Hif : forall b : bool, (if b then c else c) = c) by (intros [ | ]; reflexivity).
  rewrite !Hif, !Hs.
  repeat split.
  - unfold Client.bufferSendLoop_tick, Client.swapBuffer.
    destruct (addToBuffer_frame c stat n) as [Hk _].
    destruct (Client.buffer (Client.addToBuffer c stat n)) as [ | y b] eqn:Hb.
    + exfalso. unfold Client.addToBuffer in Hb.
      destruct (Client.bump stat (Client.buffer c)) as [b' | ] eqn:Hbump;
        cbn [Client.set_buffer Client.buffer] in Hb.
      * subst b'. destruct (Client.buffer c) as [ | z l]; cbn in Hbump;
          [discriminate | ].
        destruct (String.eqb (name z) stat); [discriminate | ].
        destruct (Client.bump stat l); discriminate.
      * destruct (Client.buffer c); discriminate.
    + rewrite sendAll_not_connected by (cbn; congruence).
      unfold Client.set_buffer, Client.addToBuffer.
      destruct (Client.bump stat (Client.buffer c)); reflexivity.
Qed.

End EmitterEdges.

(** ** The prefix of a new client *)

Lemma append_nil_r (s : string) : s ++ "" = s.
Proof. induction s as [ | a s IH]; cbn; [reflexivity | rewrite IH; reflexivity]. Qed.

Lemma append_assoc (a b c : string) : (a ++ b) ++ c = a ++ b ++ c.
Proof. induction a as [ | x a IH]; cbn; [reflexivity | rewrite IH; reflexivity]. Qed.

Lemma rev_string_acc (s acc : string) : rev_string s acc = rev_string s "" ++ acc.
Proof.
  revert acc. induction s as [ | a s IH]; intros acc; cbn [rev_string]; [reflexivity | ].
  rewrite (IH (String a acc)), (IH (String a "")), append_assoc. reflexivity.
Qed.

Lemma rev_string_app (a b : string) :
  rev_string (a ++ b) "" = rev_string b "" ++ rev_string a "".
Proof.
  induction a as [ | x a IH]; cbn [append rev_string].
  - rewrite append_nil_r. reflexivity.
  - rewrite (rev_string_acc (a ++ b)), (rev_string_acc a (String x "")), IH,
      append_assoc. reflexivity.
Qed.

Lemma rev_string_involutive (s : string) : rev_string (rev_string s "") "" = s.
Proof.
  induction s as [ | a s IH]; cbn [rev_string]; [reflexivity | ].
  rewrite (rev_string_acc s), rev_string_app, IH. reflexivity.
Qed.

Lemma rev_string_dots (n : nat) : rev_string (dots n) "" = dots n.
Proof.
  induction n as [ | n IH]; cbn [dots rev_string]; [reflexivity | ].
  rewrite rev_string_acc, IH. clear IH.
  induction n as [ | n IH]; cbn [dots append]; [reflexivity | ].
  rewrite IH. reflexivity.
Qed.

Lemma trimLeftDots_cons (a : ascii) (r : string) :
  trimLeftDots (String a r)
  = if Ascii.eqb a "."%char then trimLeftDots r else String a r.
Proof.
  destruct a as [[ | ] [ | ] [ | ] [ | ] [ | ] [ | ] [ | ] [ | ]]; reflexivity.
Qed.

Lemma trimLeftDots_spec (s : string) :
  exists n, s = dots n ++ trimLeftDots s
    /\ (forall u, trimLeftDots s <> String "."%char u).
Proof.
  induction s as [ | a s (n & Hs & Hn)].
  - exists O. split; [reflexivity | discriminate].
  - rewrite trimLeftDots_cons. destruct (Ascii.eqb_spec a "."%char) as [-> | Ha].
    + exists (S n). cbn [dots append]. rewrite <- Hs. split; [reflexivity | exact Hn].
    + exists O. split; [reflexivity | ]. intros u Hu. inversion Hu. contradiction.
Qed.

Lemma trimLeftDots_fixed (s : string) :
  (forall u, s <> String "."%char u) -> trimLeftDots s = s.
Proof.
  destruct s as [ | a s]; intros Hs; [reflexivity | ].
  rewrite trimLeftDots_cons. destruct (Ascii.eqb_spec a "."%char) as [-> | Ha];
    [exfalso; exact (Hs s eq_refl) | reflexivity].
Qed.

Lemma TrimRightDots_spec (s : string) :
  (exists n, s = TrimRightDots s ++ dots n)
  /\ (forall u, TrimRightDots s <> u ++ ".")
  /\ TrimRightDots (TrimRightDots s) = TrimRightDots s.
Proof.
  unfold TrimRightDots.
  destruct (trimLeftDots_spec (rev_string s "")) as (n & Hs & Hn).
  set (u := trimLeftDots (rev_string s "")) in *.
  split; [ | split].
  - exists n. rewrite <- (rev_string_involutive s) at 1.
    rewrite Hs, rev_string_app, rev_string_dots. reflexivity.
  - intros v Hv. apply (f_equal (fun x => rev_string x "")) in Hv.
    rewrite rev_string_involutive, rev_string_app in Hv. cbn in Hv.
    exact (Hn _ Hv).
  - rewrite rev_string_involutive, (trimLeftDots_fixed u Hn). reflexivity.
Qed.

Lemma last_of_dots (q : string) :
  forall i n, q <> "" -> q ++ dots i = dots n -> exists u, q = u ++ ".".
Proof.
  induction q as [ | c q IH]; intros i n Hq Hi; [congruence | ].
  destruct n as [ | n]; cbn [dots append] in Hi; [discriminate | ].
  inversion Hi as [[Hc Hi']]. destruct q as [ | d q].
  - exists "". reflexivity.
  - destruct (IH i n ltac:(discriminate) Hi') as (u & Hu).
    exists (String "." u). cbn [append]. rewrite Hu. reflexivity.
Qed.

(** X8. [newClient] returns the error of a failed dial as it is, and no
    client.  After a successful dial the client is connected on the given
    address with an empty buffer, and its prefix is the given one without
    its trailing dots: the prefix given is the stored one followed by dots
    only, and the one stored does not end with a dot, so that no line
    carries a doubled separator; a prefix of dots only is the empty
    prefix. *)
Theorem newClient_spec (dial : string -> error + Conn) (addr prefix : string) :
  (forall err, dial addr = inl err -> Client.newClient dial addr prefix = inl err)
  /\ (forall k, dial addr = inr k ->
      exists c, Client.newClient dial addr prefix = inr c
        /\ Client.conn c = Some k /\ Client.addr c = addr
        /\ Client.buffer c = []
        /\ (exists n, prefix = Client.prefix c ++ dots n)
        /\ (forall u, Client.prefix c <> u ++ ".")
        /\ (forall n, prefix = dots n -> Client.prefix c = "")).
Proof.
  destruct (TrimRightDots_spec prefix) as (Hdec & Hend & _).
  unfold Client.newClient. split.
  - intros err ->. reflexivity.
  - intros k ->. eexists. split; [reflexivity | ]. cbn.
    repeat split; try assumption.
    intros n Hn. destruct Hdec as (m & Hm).
    destruct (TrimRightDots prefix) as [ | a p] eqn:Hp; [reflexivity | exfalso].
    rewrite ?Hp in Hm. rewrite Hn in Hm.
    destruct (last_of_dots (String a p) m n ltac:(discriminate) (eq_sym Hm))
      as (u & Hu).
    exact (Hend u Hu).
Qed.

(** ** The counter buffer between two flushes *)

Section BufferWindow.
Context {SC : Strconv}.

Lemma addToBuffer_names (c : Client.t) (stat : string) (delta : Z) :
  NoDup (names (Client.buffer c)) ->
  names (Client.buffer (Client.addToBuffer c stat delta))
  = if in_dec string_dec stat (names (Client.buffer c))
    then names (Client.buffer c)
    else app (names (Client.buffer c)) [stat].
Proof.
  intros Hnd. rewrite addToBuffer_buffer.
  destruct (Client.bump stat (Client.buffer c)) as [b' | ] eqn:Hb.
  - destruct (bump_Some _ _ _ Hnd Hb) as (Hn & _).
    destruct (in_dec string_dec stat (names (Client.buffer c))) as [Hi | Hi];
      [exact Hn | ].
    apply bump_None in Hi. congruence.
  - apply bump_None in Hb.
    destruct (in_dec string_dec stat (names (Client.buffer c))) as [Hi | Hi];
      [contradiction | ].
    unfold names. rewrite map_app. reflexivity.
Qed.

(** X9. The buffer holds one bucket per name: if the names of the buckets
    are distinct, they still are after any sequence of additions, and the
    names pending are those that were pending and those added; so a flush
    writes one line per distinct name. *)
Theorem one_bucket_per_name (adds : list (string * Z)) (c : Client.t)
  (Hnd : NoDup (names (Client.buffer c))) :
  NoDup (names (Client.buffer (addAll c adds)))
  /\ (forall stat,
        In stat (names (Client.buffer (addAll c adds)))
        <-> In stat (names (Client.buffer c)) \/ In stat (map fst adds)).
Proof.
  revert c Hnd. induction adds as [ | [n d] adds IH]; intros c Hnd; cbn [addAll map fst].
  - split; [exact Hnd | ]. intros stat. cbn. tauto.
  - destruct (addToBuffer_pending c n d Hnd) as (Hnd' & _).
    destruct (IH _ Hnd') as (IHn & IHi). split; [exact IHn | ].
    intros stat. rewrite IHi, (addToBuffer_names c n d Hnd).
    destruct (in_dec string_dec n (names (Client.buffer c))) as [Hi | Hi]; cbn [In].
    + split; [intros [Hs | Hs]; auto | intros [Hs | [Hs | Hs]]; auto].
      subst stat. left. exact Hi.
    + rewrite in_app_iff. cbn [In]. tauto.
Qed.

(** X10. Counting events: from an empty buffer, when every delta is 1 (as
    with [Incr]) and at most [2^63 - 1] calls are made, the count pending
    for a name is the number of the calls made for it, which is the sum of
    their deltas. *)
Theorem unit_increments_are_counted (adds : list (string * Z)) (c : Client.t)
  (stat : string)
  (Hempty : Client.buffer c = [])
  (Hunit : Forall (fun a => snd a = 1) adds)
  (Hlen : Z.of_nat (List.length adds) <= Int64.max_int) :
  pending stat (Client.buffer (addAll c adds))
  = Z.of_nat (List.length (filter (fun a => String.eqb (fst a) stat) adds))
  /\ pending stat (Client.buffer (addAll c adds)) = sumDeltas stat adds.
Proof.
  assert (Hsum : forall l, Forall (fun a : string * Z => snd a = 1) l ->
            sumDeltas stat l
            = Z.of_nat (List.length (filter (fun a => String.eqb (fst a) stat) l))
            /\ sumDeltas stat l <= Z.of_nat (List.length l)).
  { induction 1 as [ | [n d] l Hd _ (IH1 & IH2)]; cbn [sumDeltas filter fst List.length].
    - split; reflexivity.
    - cbn in Hd. subst d. destruct (String.eqb n stat); cbn [List.length]; lia. }
  destruct (Hsum adds Hunit) as (Hs1 & Hs2).
  assert (Hp : pending stat (Client.buffer (addAll c adds)) = sumDeltas stat adds).
  { rewrite (addAll_unit_deltas stat adds c); rewrite ?Hempty; cbn [pending names map];
      try assumption; try (unfold Int64.min_int; lia); try lia.
    constructor. }
  split; [rewrite Hp; exact Hs1 | exact Hp].
Qed.

(** X11. The first addition of a name in a window keeps its delta: on a
    connected client, a flush, an addition and a flush write the lines of
    what was pending and then the line [<stat>:<delta>|c|@1.000000], and
    leave the buffer empty. *)
Theorem flush_add_flush (c : Client.t) (stat : string) (delta : Z)
  (Hconn : Client.conn c <> None) :
  let c' := Client.bufferSendLoop_tick
              (Client.addToBuffer (Client.bufferSendLoop_tick c) stat delta) in
  Client.wire c'
  = app (Client.wire c)
      (app (map (counterLine (Client.prefix c)) (Client.buffer c))
         [prefixed (Client.prefix c) stat ++ ":" ++ Fmt.d delta ++ "|c|@1.000000"])
  /\ Client.buffer c' = [].
Proof.
  cbv zeta. destruct (tick_spec c Hconn) as (Tb & Tw & Tp & Tc).
  set (c1 := Client.bufferSendLoop_tick c) in *.
  destruct (addToBuffer_frame c1 stat delta) as (Ak & Ap).
  assert (Hc2 : Client.conn (Client.addToBuffer c1 stat delta) <> None) by congruence.
  destruct (tick_spec _ Hc2) as (Ub & Uw & _).
  rewrite Uw, addToBuffer_wire, Ap, Tw, Tp, addToBuffer_buffer, Tb, <- app_assoc.
  split; [reflexivity | exact Ub].
Qed.




End BufferWindow.

(** ** The configuration and the client of the process *)

Section Lifecycle.
Context {SC : Strconv}.

(** X13. [Setup] stores the configuration with its host, port, project and
    flag as given, a sample rate of zero (of either sign) replaced by 1 and
    any other rate kept, NaN and rates outside [0,1] included; the rate in
    force is never zero.  The address becomes [<host>:<port>].  What was
    started before is left alone: the client made, the gates, the queue. *)
Theorem Setup_spec (w : World) (cfg : Config) :
  exists cfg',
    config (Setup w cfg) = Some cfg'
    /\ Host cfg' = Host cfg /\ Port cfg' = Port cfg
    /\ Project cfg' = Project cfg /\ Enable cfg' = Enable cfg
    /\ SampleRate cfg'
       = (if SFeqb (SampleRate cfg) F32.zero then F32.one else SampleRate cfg)
    /\ SFeqb (SampleRate cfg') F32.zero = false
    /\ addr (Setup w cfg) = Host cfg ++ ":" ++ Fmt.d (Port cfg)
    /\ once (Setup w cfg) = once w
    /\ defaultClient (Setup w cfg) = defaultClient w
    /\ sendLoopOnce (Setup w cfg) = sendLoopOnce w
    /\ sendCh (Setup w cfg) = sendCh w.
Proof.
  unfold Setup. destruct (SFeqb (SampleRate cfg) F32.zero) eqn:Hz;
    eexists; (split; [reflexivity | ]); cbn; repeat split. exact Hz.
Qed.

(** X14. The client is made at most once: whatever the first [getClient]
    does, return or panic, its gate is passed afterwards, and every later
    call returns at once without dialling, with the client of the first
    call (none after a panic), also after another [Setup] with another
    host: a failed construction is not tried again. *)
Theorem getClient_once (w : World) :
  exists w1,
    (getClient w = Returned w1 \/ getClient w = Panicked w1)
    /\ once w1 = true
    /\ getClient w1 = Returned w1
    /\ (forall cfg, getClient (Setup w1 cfg) = Returned (Setup w1 cfg)
                    /\ defaultClient (Setup w1 cfg) = defaultClient w1)
    /\ (getClient w = Panicked w1 -> defaultClient w1 = defaultClient w).
Proof.
  assert (Hlater : forall w1, once w1 = true ->
            getClient w1 = Returned w1
            /\ forall cfg, getClient (Setup w1 cfg) = Returned (Setup w1 cfg)
                           /\ defaultClient (Setup w1 cfg) = defaultClient w1).
  { intros w1 Ho. unfold getClient. rewrite Ho. split; [reflexivity | ].
    intros cfg. destruct (Setup_spec w1 cfg) as (c' & _ & _ & _ & _ & _ & _ & _ & _ & Hs & Hd & _).
    rewrite Hs, Ho. split; [reflexivity | exact Hd]. }
  unfold getClient. destruct (once w) eqn:Ho.
  - exists w. destruct (Hlater w Ho) as (H1 & H2).
    split; [left; reflexivity | ]. split; [exact Ho | ].
    split; [exact H1 | ]. split; [exact H2 | discriminate].
  - destruct (config w) as [cfg | ].
    + destruct (Client.newClient (dial w) (addr w) (Project cfg)) as [err | c].
      * eexists. split; [right; reflexivity | ]. split; [reflexivity | ].
        split; [apply Hlater; reflexivity | ]. split; [ | reflexivity].
        intros cfg'. apply Hlater. reflexivity.
      * eexists. split; [left; reflexivity | ]. split; [reflexivity | ].
        split; [apply Hlater; reflexivity | ]. split; [ | discriminate].
        intros cfg'. apply Hlater. reflexivity.
    + eexists. split; [right; reflexivity | ]. split; [reflexivity | ].
      split; [apply Hlater; reflexivity | ]. split; [ | reflexivity].
      intros cfg'. apply Hlater. reflexivity.
Qed.

(** X15. The first emission of an enabled process makes everything: after
    [Setup] on an untouched process, when the dial of [<host>:<port>]
    succeeds, [GaugeWithSampling] returns with the client made on that
    address, its prefix the project without trailing dots, nothing written
    and nothing buffered, both gates passed, the worker started, and the
    one item queued. *)
Theorem first_emission_starts_all (g : Rand) (net : string -> error + Conn)
  (cfg : Config) (k : Conn) (stat : string) (v : Z) (r : float32)
  (Hon : Enable cfg = true)
  (Hdial : net (Host cfg ++ ":" ++ Fmt.d (Port cfg)) = inr k) :
  exists w',
    GaugeWithSampling (Setup (initial g net) cfg) stat v r = Returned w'
    /\ defaultClient w'
       = Some (Client.mk (Host cfg ++ ":" ++ Fmt.d (Port cfg))
                 (TrimRightDots (Project cfg)) (Some k) [] true)
    /\ once w' = true /\ sendLoopOnce w' = true /\ worker w' = true
    /\ sendCh w' = Some [gaugeItem r (stat, v)]
    /\ fireRand w' = g.
Proof.
  unfold GaugeWithSampling, gauge, send, sendAsync, Setup, initial, getClient,
    Client.newClient.
  destruct (SFeqb (SampleRate cfg) F32.zero);
    cbn -[append Fmt.d TrimRightDots]; rewrite Hon;
    cbn -[append Fmt.d TrimRightDots]; rewrite Hdial;
    cbn -[append Fmt.d TrimRightDots]; eexists; repeat split.
Qed.

(** X16. Before the dispatcher has started, [sendAsync] panics exactly
    when the client was never made and cannot be: [Setup] was not called,
    or the dial fails.  The gate of the dispatcher is passed all the same,
    and no worker runs. *)
Theorem sendAsync_panic_iff (w : World) (stat : string) (val : iface)
  (t : metricType) (r : float32)
  (Hfirst : sendLoopOnce w = false) :
  (exists w', sendAsync w stat val t r = Panicked w'
              /\ sendLoopOnce w' = true /\ once w' = true
              /\ worker w' = worker w /\ defaultClient w' = defaultClient w)
  <-> once w = false
      /\ (config w = None \/ exists err, dial w (addr w) = inl err).
Proof.
  unfold sendAsync, getClient. rewrite Hfirst. cbn [once config dial addr].
  destruct (once w); cbn [bind].
  - split; [intros (w' & Hp & _); discriminate | intros [Ho _]; discriminate].
  - destruct (config w) as [cfg | ]; cbn [bind].
    + unfold Client.newClient. destruct (dial w (addr w)) as [err | k]; cbn [bind].
      * split; [intros _; split; [reflexivity | right; exists err; reflexivity] | ].
        intros _. eexists. split; [reflexivity | repeat split].
      * split; [intros (w' & Hp & _); discriminate | ].
        intros [_ [Hc | (err & He)]]; discriminate.
    + split; [intros _; split; [reflexivity | left; reflexivity] | ].
      intros _. eexists. split; [reflexivity | repeat split].
Qed.

(** X17. The public [IncrWithSampling] and [IncrByVal] never buffer a
    count that is not positive: once the client exists, a call with
    [val <= 0] returns and leaves the client as it was ([IncrWithSampling]
    ignores a zero by itself, the rest is refused by [checkCount], and the
    error is dropped). *)
Theorem nonpositive_increment_dropped (w : World) (c : Client.t) (stat : string)
  (val : Z) (r : float32)
  (Honce : once w = true)
  (Hclient : defaultClient w = Some c)
  (Hval : val <= 0) :
  (exists w', IncrWithSampling w stat val r = Returned w'
              /\ defaultClient w' = Some c)
  /\ (exists w', IncrByVal w stat val = Returned w'
                 /\ defaultClient w' = Some c).
Proof.
  assert (Hc : forall r0, snd (fst (Client.IncrWithSampling c stat val r0 (fireRand w))) = c).
  { intros r0.
    destruct (IncrWithSampling_cases c stat val r0 (fireRand w))
      as [(e & g1 & Heq & _) | [(g1 & Heq) | (g1 & Heq & _ & _ & Hpos)]];
      try (rewrite Heq; reflexivity). lia. }
  assert (Hcall : forall r0, exists w',
             call (Some c) (fun c0 => Client.IncrWithSampling c0 stat val r0)
               (nil_receiver r0 (Some val)) w = Returned w'
             /\ defaultClient w' = Some c).
  { intros r0. unfold call. specialize (Hc r0).
    destruct (Client.IncrWithSampling c stat val r0 (fireRand w)) as [[e c'] g'].
    cbn in Hc. subst c'. eexists. split; reflexivity. }
  unfold IncrWithSampling, IncrByVal, getClient. rewrite Honce. cbn [bind].
  rewrite Hclient. split.
  - destruct (config w) as [cfg | ]; [ | exists w; split; [reflexivity | exact Hclient]].
    destruct (negb (Enable cfg)); [exists w; split; [reflexivity | exact Hclient] | ].
    destruct (val =? 0); [exists w; split; [reflexivity | exact Hclient] | ].
    apply Hcall.
  - destruct (config w) as [cfg | ]; [ | exists w; split; [reflexivity | exact Hclient]].
    apply Hcall.
Qed.

End Lifecycle.

(** ** The dispatcher: queue and worker *)

Section Dispatch.
Context {SC : Strconv}.

Lemma writers_keep_buffer (c : Client.t) (stat : string) (n : Z) (x : float64)
  (r : float32) (g : Rand) :
  Client.buffer (snd (fst (Client.GaugeWithSampling c stat n r g))) = Client.buffer c
  /\ Client.buffer (snd (fst (Client.FGaugeWithSampling c stat x r g))) = Client.buffer c
  /\ Client.buffer (snd (fst (Client.TimingWithSampling c stat n r g))) = Client.buffer c.
Proof.
  unfold Client.GaugeWithSampling, Client.FGaugeWithSampling, Client.TimingWithSampling.
  destruct (checkSampleRate r); [repeat split | ].
  destruct (shouldFire r g) as [[ | ] g']; cbn [negb]; [ | repeat split].
  assert (Hs : forall c0 b v t0 r0,
             Client.buffer (snd (Client.send c0 b v t0 r0)) = Client.buffer c0).
  { intros. apply send_frame. }
  assert (Hd : forall c0 b v t0 r0,
             Client.buffer (snd (fst (let (err, c') := Client.send c0 b v t0 r0 in
                                      (err, c', g')))) = Client.buffer c0).
  { intros. specialize (Hs c0 b v t0 r0).
    destruct (Client.send c0 b v t0 r0). exact Hs. }
  rewrite !Hd. repeat split.
  - destruct (n <? 0); [apply Hs | reflexivity].
  - destruct (SFltb x (S754_zero false)); [apply Hs | reflexivity].
Qed.

(** X18. The worker routes by kind.  With the client at hand, a step on a
    non-empty queue returns, takes the oldest item off the queue and
    touches nothing but the client and the random source: a counter item
    writes nothing (it goes to the buffer), and an item of any other kind
    leaves the buffer as it was (it is written at once or dropped). *)
Theorem worker_routes_by_kind (w : World) (c : Client.t) (item : sendItem)
  (q : list sendItem)
  (Hworker : worker w = true)
  (Hqueue : sendCh w = Some (item :: q))
  (Hclient : defaultClient w = Some c) :
  exists w' c',
    workerStep w = Returned w'
    /\ sendCh w' = Some q /\ defaultClient w' = Some c'
    /\ config w' = config w /\ worker w' = true
    /\ (t item = metricTypeCount -> Client.wire c' = Client.wire c)
    /\ (t item <> metricTypeCount -> Client.buffer c' = Client.buffer c).
Proof.
  unfold workerStep. rewrite Hworker, Hqueue. cbn [defaultClient set_sendCh].
  rewrite Hclient. unfold sendEx.
  assert (Hsame : exists w' c',
             Returned (set_sendCh w (Some q)) = Returned w'
             /\ sendCh w' = Some q /\ defaultClient w' = Some c'
             /\ config w' = config w /\ worker w' = true
             /\ (t item = metricTypeCount -> Client.wire c' = Client.wire c)
             /\ (t item <> metricTypeCount -> Client.buffer c' = Client.buffer c)).
  { exists (set_sendCh w (Some q)), c. repeat split; assumption. }
  destruct (String.eqb (stat item) ""); [exact Hsame | ].
  destruct (t item) eqn:Ht, (val item) eqn:Hv; try exact Hsame; unfold call;
    cbn [fireRand set_sendCh].
  - pose proof (IncrWithSampling_wire c (stat item) n (sampleRate item) (fireRand w)) as Hw.
    destruct (Client.IncrWithSampling c (stat item) n (sampleRate item) (fireRand w))
      as [[e c'] g'].
    eexists. exists c'. split; [reflexivity | ]. cbn. repeat split; try assumption.
    + intros _. exact Hw.
    + intros Hne. congruence.
  - pose proof (writers_keep_buffer c (stat item) n (S754_zero false)
                  (sampleRate item) (fireRand w)) as (Hb & _).
    destruct (Client.GaugeWithSampling c (stat item) n (sampleRate item) (fireRand w))
      as [[e c'] g'].
    eexists. exists c'. split; [reflexivity | ]. cbn. repeat split; try assumption.
    + discriminate.
    + intros _. exact Hb.
  - pose proof (writers_keep_buffer c (stat item) 0 x
                  (sampleRate item) (fireRand w)) as (_ & Hb & _).
    destruct (Client.FGaugeWithSampling c (stat item) x (sampleRate item) (fireRand w))
      as [[e c'] g'].
    eexists. exists c'. split; [reflexivity | ]. cbn. repeat split; try assumption.
    + discriminate.
    + intros _. exact Hb.
  - pose proof (writers_keep_buffer c (stat item) n (S754_zero false)
                  (sampleRate item) (fireRand w)) as (_ & _ & Hb).
    destruct (Client.TimingWithSampling c (stat item) n (sampleRate item) (fireRand w))
      as [[e c'] g'].
    eexists. exists c'. split; [reflexivity | ]. cbn. repeat split; try assumption.
    + discriminate.
    + intros _. exact Hb.
Qed.

(** X19. An item whose value is not of the type its kind asks for (a gauge
    carrying a float, a float gauge or a counter carrying an [int], any
    value under an unknown kind) is dropped by [sendEx] without a trace:
    no method is called, on a nil client neither. *)
Theorem ill_typed_item_dropped (client : option Client.t) (stat : string)
  (val : iface) (t : metricType) (r : float32) (w : World)
  (Htype : well_typed t val = false) :
  sendEx client stat val t r w = Returned w.
Proof.
  unfold sendEx. destruct (String.eqb stat ""); [reflexivity | ].
  destruct t, val; cbn in Htype; try discriminate; reflexivity.
Qed.

Lemma gauge_rate_one (c : Client.t) (stat : string) (v : Z) (g : Rand) :
  0 <= v ->
  Client.GaugeWithSampling c stat v F32.one g
  = (fst (Client.send c stat (I_int64 v) "g" F32.one),
     snd (Client.send c stat (I_int64 v) "g" F32.one), g).
Proof.
  intros Hv. apply Z.ltb_ge in Hv. unfold Client.GaugeWithSampling.
  change (checkSampleRate F32.one) with (@None error).
  change (shouldFire F32.one g) with (true, g). cbn [negb]. rewrite Hv.
  destruct (Client.send c stat (I_int64 v) "g" F32.one). reflexivity.
Qed.

Lemma worker_gauges (items : list (string * Z)) :
  forall (w : World) (c : Client.t) (rest : list sendItem),
    worker w = true -> defaultClient w = Some c -> Client.conn c <> None ->
    sendCh w = Some (app (map (gaugeItem F32.one) items) rest) ->
    Forall (fun p => fst p <> "" /\ 0 <= snd p) items ->
    exists w' c',
      workerSteps (List.length items) w = Returned w'
      /\ defaultClient w' = Some c' /\ sendCh w' = Some rest
      /\ Client.wire c'
         = app (Client.wire c) (map (gaugeLine (Client.prefix c) F32.one) items)
      /\ Client.buffer c' = Client.buffer c
      /\ fireRand w' = fireRand w /\ worker w' = true.
Proof.
  induction items as [ | [s v] items IH]; intros w c rest Hw Hc Hk Hq Hok;
    cbn [List.length workerSteps map app] in *.
  - exists w, c. rewrite app_nil_r. repeat split; assumption.
  - inversion Hok as [ | p l [Hs Hv] Hok']; subst. cbn [fst snd] in Hs, Hv.
    unfold workerStep. rewrite Hw, Hq.
    cbn [stat val t sampleRate gaugeItem fst snd defaultClient set_sendCh].
    rewrite Hc. unfold sendEx. apply String.eqb_neq in Hs. rewrite Hs.
    unfold call. cbn [fireRand set_sendCh]. rewrite (gauge_rate_one c s v _ Hv).
    cbn [bind].
    pose proof (send_frame c s (I_int64 v) "g" F32.one) as (Hb & Hp & _ & Hk').
    pose proof (send_wire c s (I_int64 v) "g" F32.one Hk) as Hwire.
    cbv zeta in Hb, Hp, Hk'.
    set (c1 := snd (Client.send c s (I_int64 v) "g" F32.one)) in *.
    edestruct (IH (set_client (set_sendCh w (Some (app (map (gaugeItem F32.one) items) rest)))
                     (Some c1) (fireRand w)) c1 rest)
      as (w' & c' & Hrun & Hd & Hch & Hwi & Hbu & Hr & Hwk);
      try reflexivity; try assumption; [exact (Hk' Hk) | ].
    exists w', c'. split; [exact Hrun | ].
    rewrite Hwi, Hwire, Hbu, Hb, Hp, <- app_assoc.
    repeat split; assumption.
Qed.

(** X20. The worker delivers in arrival order: with the client connected
    and a queue that starts with gauge items of rate 1, with names that
    are not empty and values that are not negative, as many steps as there
    are items write their lines in the order of the queue, take them off
    the queue, and leave the buffer and the random source alone. *)
Theorem worker_fifo (items : list (string * Z)) (w : World) (c : Client.t)
  (rest : list sendItem)
  (Hworker : worker w = true)
  (Hclient : defaultClient w = Some c)
  (Hconn : Client.conn c <> None)
  (Hqueue : sendCh w = Some (app (map (gaugeItem F32.one) items) rest))
  (Hitems : Forall (fun p => fst p <> "" /\ 0 <= snd p) items) :
  exists w' c',
    workerSteps (List.length items) w = Returned w'
    /\ defaultClient w' = Some c' /\ sendCh w' = Some rest
    /\ Client.wire c'
       = app (Client.wire c) (map (gaugeLine (Client.prefix c) F32.one) items)
    /\ Client.buffer c' = Client.buffer c
    /\ fireRand w' = fireRand w.
Proof.
  destruct (worker_gauges items w c rest Hworker Hclient Hconn Hqueue Hitems)
    as (w' & c' & H1 & H2 & H3 & H4 & H5 & H6 & _).
  exists w', c'. repeat split; assumption.
Qed.

Lemma sendAsync_started (w : World) (stat : string) (val : iface)
  (t : metricType) (r : float32) :
  sendLoopOnce w = true ->
  sendAsync w stat val t r = Returned (trySend w (mkSendItem stat val t r)).
Proof. intros Hs. unfold sendAsync. rewrite Hs. reflexivity. Qed.

Lemma firstn_full (A : Type) (cap : nat) (q l : list A) :
  List.length q = cap -> firstn cap (app q l) = q.
Proof.
  intros Hq. rewrite firstn_app, Hq, Nat.sub_diag, firstn_O, app_nil_r.
  subst cap. apply firstn_all.
Qed.

Lemma trySend_firstn (w : World) (q : list sendItem) (item : sendItem) :
  sendCh w = Some q -> (List.length q <= sendChCap)%nat ->
  exists q', trySend w item = set_sendCh w (Some q')
    /\ (List.length q' <= sendChCap)%nat
    /\ forall l, firstn sendChCap (app q' l) = firstn sendChCap (app q (item :: l)).
Proof.
  intros Hq Hlen. unfold trySend. rewrite Hq.
  destruct (Nat.ltb_spec (List.length q) sendChCap) as [Hlt | Hge].
  - exists (app q [item]). split; [reflexivity | ]. split.
    + rewrite length_app. cbn [List.length]. lia.
    + intros l. rewrite <- app_assoc. reflexivity.
  - exists q. split.
    + destruct w. cbn in *. subst. reflexivity.
    + split; [exact Hlen | ]. intros l.
      rewrite !firstn_full by lia. reflexivity.
Qed.

Lemma sendAsyncAll_started (items : list sendItem) :
  forall (w : World) (q : list sendItem),
    sendLoopOnce w = true -> sendCh w = Some q ->
    (List.length q <= sendChCap)%nat ->
    sendAsyncAll w items
    = Returned (set_sendCh w (Some (firstn sendChCap (app q items)))).
Proof.
  induction items as [ | i items IH]; intros w q Hs Hq Hlen; cbn [sendAsyncAll].
  - rewrite app_nil_r, firstn_all2 by exact Hlen.
    destruct w. cbn in *. subst. reflexivity.
  - rewrite sendAsync_started by exact Hs. cbn [bind].
    destruct (trySend_firstn w q (mkSendItem (stat i) (val i) (t i) (sampleRate i)) Hq Hlen)
      as (q' & Ht & Hl' & Hf).
    rewrite Ht. rewrite (IH _ q') by (try reflexivity; assumption).
    rewrite Hf. destruct i. reflexivity.
Qed.

(** X21. Under a burst the queue keeps the oldest items: once the
    dispatcher has started, successive calls of [sendAsync] with no worker
    step in between all return, and leave in the queue the first 1024 of
    what was queued followed by the new items; the items beyond are lost
    and nothing else changes. *)
Theorem burst_keeps_first (items : list sendItem) (w : World) (q : list sendItem)
  (Hstarted : sendLoopOnce w = true)
  (Hqueue : sendCh w = Some q)
  (Hlen : (List.length q <= sendChCap)%nat) :
  sendAsyncAll w items
  = Returned (set_sendCh w (Some (firstn sendChCap (app q items))))
  /\ ((List.length q + List.length items <= sendChCap)%nat ->
      firstn sendChCap (app q items) = app q items)
  /\ (List.length (firstn sendChCap (app q items)) <= sendChCap)%nat.
Proof.
  split; [exact (sendAsyncAll_started items w q Hstarted Hqueue Hlen) | ].
  split.
  - intros Hroom. apply firstn_all2. rewrite length_app. exact Hroom.
  - rewrite length_firstn. apply Nat.le_min_l.
Qed.

Lemma GaugeTimes_started (n : nat) (stat : string) (v : Z) (cfg : Config) :
  forall (w : World) (q : list sendItem),
    config w = Some cfg -> Enable cfg = true ->
    sendLoopOnce w = true -> sendCh w = Some q ->
    (List.length q <= sendChCap)%nat ->
    GaugeTimes n w stat v
    = Returned (set_sendCh w
        (Some (firstn sendChCap
                 (app q (repeat (gaugeItem (SampleRate cfg) (stat, v)) n))))).
Proof.
  induction n as [ | n IH]; intros w q Hc He Hs Hq Hlen; cbn [GaugeTimes repeat].
  - rewrite app_nil_r, firstn_all2 by exact Hlen.
    destruct w. cbn in *. subst. reflexivity.
  - unfold Gauge, GaugeWithSampling, gauge, send. rewrite Hc, He. cbn [negb].
    rewrite sendAsync_started by exact Hs. cbn [bind].
    destruct (trySend_firstn w q
                (mkSendItem stat (I_int64 v) metricTypeGauge (SampleRate cfg)) Hq Hlen)
      as (q' & Ht & Hl' & Hf).
    rewrite Ht. rewrite (IH _ q') by (try reflexivity; assumption).
    rewrite Hf. reflexivity.
Qed.

(** X22. [GaugeMultiTimes] does nothing for [t <= 0].  For [t > 0], on an
    enabled process whose dispatcher has started, it queues the same item
    [t] times at the configured rate, as far as the queue has room: the
    queue becomes the first 1024 of the old one followed by [t] copies. *)
Theorem GaugeMultiTimes_spec (w : World) (cfg : Config) (q : list sendItem)
  (stat : string) (v t : Z)
  (Hconfig : config w = Some cfg)
  (Hon : Enable cfg = true)
  (Hstarted : sendLoopOnce w = true)
  (Hqueue : sendCh w = Some q)
  (Hlen : (List.length q <= sendChCap)%nat) :
  (t <= 0 -> GaugeMultiTimes w stat v t = Returned w)
  /\ (0 < t ->
      GaugeMultiTimes w stat v t
      = Returned (set_sendCh w
          (Some (firstn sendChCap
                   (app q (repeat (gaugeItem (SampleRate cfg) (stat, v))
                             (Z.to_nat t)))))))
  /\ Gauge2Times w stat v
     = Returned (set_sendCh w
         (Some (firstn sendChCap
                  (app q (repeat (gaugeItem (SampleRate cfg) (stat, v)) 2))))).
Proof.
  unfold GaugeMultiTimes. split; [ | split].
  - intros Ht. apply Z.leb_le in Ht. rewrite Ht. reflexivity.
  - intros Ht. apply Z.leb_gt in Ht. rewrite Ht.
    exact (GaugeTimes_started _ stat v cfg w q Hconfig Hon Hstarted Hqueue Hlen).
  - pose proof (GaugeTimes_started 2 stat v cfg w q Hconfig Hon Hstarted Hqueue Hlen)
      as H2.
    cbn [GaugeTimes] in H2. unfold Gauge2Times. rewrite <- H2.
    destruct (Gauge w stat v) as [w1 | w1]; cbn [bind]; [ | reflexivity].
    destruct (Gauge w1 stat v); reflexivity.
Qed.

(** X23. A duration is sent in whole milliseconds, truncated toward zero:
    on an enabled process, [TimingByValueWithSampling] of an [int64]
    duration [d] in nanoseconds queues the timer item of [d] quotient
    [10^6], so that any duration shorter than a millisecond, of either
    sign, is sent as 0. *)
Theorem timing_in_milliseconds (w : World) (cfg : Config) (stat : string)
  (d : Z) (r : float32)
  (Hconfig : config w = Some cfg)
  (Hon : Enable cfg = true)
  (Hd : Int64.in_range d) :
  TimingByValueWithSampling w stat d r
  = sendAsync w stat (I_int64 (Z.quot d 1000000)) metricTypeTimer r
  /\ TimingByValue w stat d
     = sendAsync w stat (I_int64 (Z.quot d 1000000)) metricTypeTimer (SampleRate cfg)
  /\ Z.abs (Z.quot d 1000000) * 1000000 <= Z.abs d
     < (Z.abs (Z.quot d 1000000) + 1) * 1000000
  /\ (Z.abs d < 1000000 -> Z.quot d 1000000 = 0).
Proof.
  assert (Habs : Z.abs (Z.quot d 1000000) = Z.abs d / 1000000).
  { rewrite <- Z.quot_abs by lia. change (Z.abs 1000000) with 1000000.
    apply Z.quot_div_nonneg; lia. }
  pose proof (Z.div_mod (Z.abs d) 1000000 ltac:(lia)) as Hdm.
  pose proof (Z.mod_pos_bound (Z.abs d) 1000000 ltac:(lia)) as Hmb.
  assert (Hq : Int64.quot d Millisecond = Z.quot d 1000000).
  { unfold Int64.quot, Int64.wrap, Millisecond.
    unfold Int64.in_range, Int64.min_int, Int64.max_int in Hd.
    rewrite Z.mod_small; lia. }
  unfold TimingByValue, TimingByValueWithSampling, send.
  rewrite Hconfig, Hon, Hq. cbn [negb].
  split; [reflexivity | split; [reflexivity | ]].
  rewrite Habs. split; [lia | ].
  intros Hsmall. apply Z.abs_0_iff. rewrite Habs. apply Z.div_small. lia.
Qed.

(** X24. From the call to the wire: on an enabled process whose dispatcher
    has started with an empty queue and a connected client, gauges queued
    at rate 1 and then worked off, one step each, are written in the order
    of the calls, provided they fit in the queue, their names are not
    empty and their values not negative. *)
Theorem gauges_reach_the_wire (items : list (string * Z)) (w : World)
  (c : Client.t)
  (Hstarted : sendLoopOnce w = true)
  (Hworker : worker w = true)
  (Hqueue : sendCh w = Some [])
  (Hclient : defaultClient w = Some c)
  (Hconn : Client.conn c <> None)
  (Hfit : (List.length items <= sendChCap)%nat)
  (Hitems : Forall (fun p => fst p <> "" /\ 0 <= snd p) items) :
  exists w' c',
    bind (sendAsyncAll w (map (gaugeItem F32.one) items))
      (workerSteps (List.length items)) = Returned w'
    /\ defaultClient w' = Some c' /\ sendCh w' = Some []
    /\ Client.wire c'
       = app (Client.wire c) (map (gaugeLine (Client.prefix c) F32.one) items).
Proof.
  rewrite (sendAsyncAll_started _ w [] Hstarted Hqueue) by apply Nat.le_0_l.
  cbn [bind app]. rewrite firstn_all2 by (rewrite length_map; exact Hfit).
  edestruct (worker_gauges items (set_sendCh w (Some (map (gaugeItem F32.one) items)))
               c []) as (w' & c' & Hrun & Hd & Hch & Hwi & _);
    try eassumption; try reflexivity.
  - cbn. rewrite app_nil_r. reflexivity.
  - exists w', c'. repeat split; assumption.
Qed.

End Dispatch.

Section Gates.
Context {SC : Strconv}.

Lemma GaugeTimes_gated (n : nat) (w : World) (stat : string) (v : Z) :
  (config w = None \/ exists cfg, config w = Some cfg /\ Enable cfg = false) ->
  GaugeTimes n w stat v = Returned w.
Proof.
  intros Hoff. induction n as [ | n IH]; cbn [GaugeTimes]; [reflexivity | ].
  assert (Hg : Gauge w stat v = Returned w).
  { unfold Gauge, GaugeWithSampling.
    destruct Hoff as [Hc | (cfg & Hc & He)]; rewrite Hc; [reflexivity | ].
    rewrite He. reflexivity. }
  rewrite Hg. exact IH.
Qed.

(** X25. Every public emitter but [Incr] and [IncrByVal] is gated: before
    [Setup], or with [Enable] false, the sampling variants, [Gauge],
    [FGauge], [Gauge2Times], [GaugeMultiTimes] and the timing functions
    return at once and leave the whole process as it was: no client is
    made, nothing is queued, no random draw is taken. *)
Theorem gated_emitters_do_nothing (w : World) (stat : string) (n t : Z)
  (x : float64) (t1 t2 : Z) (r : float32)
  (Hoff : config w = None \/ exists cfg, config w = Some cfg /\ Enable cfg = false) :
  IncrWithSampling w stat n r = Returned w
  /\ GaugeWithSampling w stat n r = Returned w
  /\ Gauge w stat n = Returned w
  /\ Gauge2Times w stat n = Returned w
  /\ GaugeMultiTimes w stat n t = Returned w
  /\ FGaugeWithSampling w stat x r = Returned w
  /\ FGauge w stat x = Returned w
  /\ TimingByValueWithSampling w stat n r = Returned w
  /\ TimingByValue w stat n = Returned w
  /\ TimingWithSampling w stat t1 t2 r = Returned w
  /\ Timing w stat t1 t2 = Returned w.
Proof.
  pose proof (GaugeTimes_gated 2 w stat n Hoff) as H2.
  pose proof (GaugeTimes_gated (Z.to_nat t) w stat n Hoff) as Ht.
  assert (Hm : GaugeMultiTimes w stat n t = Returned w).
  { unfold GaugeMultiTimes. destruct (t <=? 0); [reflexivity | exact Ht]. }
  assert (Hg2 : Gauge2Times w stat n = Returned w).
  { unfold Gauge2Times. cbn [GaugeTimes] in H2.
    destruct (Gauge w stat n) as [w1 | w1]; cbn [bind] in *; [ | discriminate].
    destruct (Gauge w1 stat n); cbn [bind] in H2; congruence. }
  unfold Timing, TimingWithSampling, TimingByValue, TimingByValueWithSampling,
    FGauge, FGaugeWithSampling, Gauge, GaugeWithSampling, IncrWithSampling.
  destruct Hoff as [Hc | (cfg & Hc & He)]; rewrite Hc in *;
    [repeat split; assumption | ].
  rewrite He in *. repeat split; assumption.
Qed.

End Gates.

(** * Instances of the further properties *)

Lemma invalid_rate_rejected_witness :
  checkSampleRate (F32.of_ratio 3 2) <> None
  /\ Client.GaugeWithSampling (SC := exampleStrconv) (fresh_client "app") "temp" 7
       (F32.of_ratio 3 2) exampleRand
     = (Some ErrInvalidSampleRate, fresh_client "app", exampleRand).
Proof.
  assert (Hr : checkSampleRate (F32.of_ratio 3 2) <> None) by discriminate.
  split; [exact Hr | ].
  apply (invalid_rate_rejected (SC := exampleStrconv) (fresh_client "app") "temp" 7
           (F64.of_Z 7) (F32.of_ratio 3 2) exampleRand Hr).
Defined.

Lemma not_fired_is_silent_witness :
  checkSampleRate (F32.of_ratio 1 10) = None
  /\ fst (shouldFire (F32.of_ratio 1 10) exampleRand) = false
  /\ Client.IncrWithSampling (fresh_client "app") "hits" 0 (F32.of_ratio 1 10) exampleRand
     = (None, fresh_client "app", snd (shouldFire (F32.of_ratio 1 10) exampleRand)).
Proof.
  assert (Hr : checkSampleRate (F32.of_ratio 1 10) = None) by reflexivity.
  assert (Hf : fst (shouldFire (F32.of_ratio 1 10) exampleRand) = false) by reflexivity.
  split; [exact Hr | split; [exact Hf | ]].
  apply (not_fired_is_silent (SC := exampleStrconv) (fresh_client "app") "hits" 0
           (F64.of_Z 7) (F32.of_ratio 1 10) exampleRand Hr Hf).
Defined.

Lemma timing_writes_one_line_witness :
  Client.conn (fresh_client "app") <> None
  /\ checkSampleRate F32.one = None
  /\ fst (shouldFire F32.one exampleRand) = true
  /\ Client.wire (snd (fst (Client.TimingWithSampling (SC := exampleStrconv)
                              (fresh_client "app") "load" (-5) F32.one exampleRand)))
     = ["app.load:-5|ms|@1.000000"].
Proof.
  assert (Hconn : Client.conn (fresh_client "app") <> None) by discriminate.
  assert (Hrate : checkSampleRate F32.one = None) by reflexivity.
  assert (Hfire : fst (shouldFire F32.one exampleRand) = true) by reflexivity.
  split; [exact Hconn | split; [exact Hrate | split; [exact Hfire | ]]].
  apply (timing_writes_one_line (SC := exampleStrconv) (fresh_client "app") "load"
           (-5) F32.one exampleRand Hconn Hrate Hfire).
Defined.

Lemma nonnegative_gauge_one_line_witness :
  Client.conn (fresh_client "app") <> None
  /\ checkSampleRate F32.one = None
  /\ fst (shouldFire F32.one exampleRand) = true
  /\ 0 <= 3
  /\ ~ below_zero (S754_zero true)
  /\ Client.wire (snd (fst (Client.GaugeWithSampling (SC := exampleStrconv)
                              (fresh_client "app") "temp" 3 F32.one exampleRand)))
     = ["app.temp:3|g|@1.000000"]
  /\ Client.wire (snd (fst (Client.FGaugeWithSampling (SC := exampleStrconv)
                              (fresh_client "app") "temp" (S754_zero true) F32.one
                              exampleRand)))
     = ["app.temp:-0|g|@1.000000"].
Proof.
  assert (Hconn : Client.conn (fresh_client "app") <> None) by discriminate.
  assert (Hrate : checkSampleRate F32.one = None) by reflexivity.
  assert (Hfire : fst (shouldFire F32.one exampleRand) = true) by reflexivity.
  assert (Hvalue : 0 <= 3) by lia.
  assert (Hx : ~ below_zero (S754_zero true)).
  { intros [Hi | (num & k & Hd & Hn)]; [discriminate | ].
    inversion Hd; subst. lia. }
  split; [exact Hconn | ]. split; [exact Hrate | ]. split; [exact Hfire | ].
  split; [exact Hvalue | ]. split; [exact Hx | ].
  exact (nonnegative_gauge_one_line (SC := exampleStrconv) (fresh_client "app")
           "temp" 3 (S754_zero true) F32.one exampleRand
           Hconn Hrate Hfire Hvalue Hx).
Defined.

Lemma gauge_error_is_last_write_witness :
  let k := mkConn [] (fun n => match n with
                               | O => Some (ErrNet "refused")
                               | _ => None
                               end) in
  let c := Client.mk "127.0.0.1:8125" "app" (Some k) [] true in
  Client.conn c = Some k
  /\ checkSampleRate F32.one = None
  /\ fst (shouldFire F32.one exampleRand) = true
  /\ fst (fst (Client.GaugeWithSampling (SC := exampleStrconv) c "temp" (-3)
                 F32.one exampleRand)) = None
  /\ fst (fst (Client.GaugeWithSampling (SC := exampleStrconv) c "temp" 3
                 F32.one exampleRand)) = Some (ErrNet "refused").
Proof.
  cbv zeta.
  set (k := mkConn [] (fun n => match n with
                                | O => Some (ErrNet "refused")
                                | _ => None
                                end)).
  set (c := Client.mk "127.0.0.1:8125" "app" (Some k) [] true).
  assert (Hconn : Client.conn c = Some k) by reflexivity.
  assert (Hrate : checkSampleRate F32.one = None) by reflexivity.
  assert (Hfire : fst (shouldFire F32.one exampleRand) = true) by reflexivity.
  split; [exact Hconn | split; [exact Hrate | split; [exact Hfire | split]]].
  - exact (gauge_error_is_last_write (SC := exampleStrconv) c k "temp" (-3)
             F32.one exampleRand Hconn Hrate Hfire).
  - exact (gauge_error_is_last_write (SC := exampleStrconv) c k "temp" 3
             F32.one exampleRand Hconn Hrate Hfire).
Defined.

Lemma not_connected_behaviour_witness :
  let c := Client.mk "" "app" None [] false in
  Client.conn c = None
  /\ checkSampleRate F32.one = None
  /\ fst (shouldFire F32.one exampleRand) = true
  /\ 0 < 2
  /\ Client.GaugeWithSampling (SC := exampleStrconv) c "temp" 2 F32.one exampleRand
     = (Some ErrNotConnected, c, exampleRand)
  /\ Client.bufferSendLoop_tick (SC := exampleStrconv) (Client.addToBuffer c "temp" 2)
     = c.
Proof.
  cbv zeta. set (c := Client.mk "" "app" None [] false).
  assert (Hconn : Client.conn c = None) by reflexivity.
  assert (Hrate : checkSampleRate F32.one = None) by reflexivity.
  assert (Hfire : fst (shouldFire F32.one exampleRand) = true) by reflexivity.
  assert (Hn : 0 < 2) by lia.
  pose proof (not_connected_behaviour (SC := exampleStrconv) c "temp" 2
                (F64.of_Z 2) F32.one exampleRand Hconn Hrate Hfire Hn)
    as (_ & _ & Hg & _ & _ & _ & Ht).
  split; [exact Hconn | ]. split; [exact Hrate | ]. split; [exact Hfire | ].
  split; [exact Hn | ]. split; [exact Hg | exact Ht].
Defined.

Lemma newClient_spec_witness :
  exampleNet "127.0.0.1:8125" = inr (mkConn [] (fun _ => None))
  /\ exists c, Client.newClient exampleNet "127.0.0.1:8125" "app.." = inr c
       /\ Client.prefix c = "app"
       /\ "app.." = Client.prefix c ++ dots 2.
Proof.
  assert (Hd : exampleNet "127.0.0.1:8125" = inr (mkConn [] (fun _ => None)))
    by reflexivity.
  split; [exact Hd | ].
  destruct (newClient_spec exampleNet "127.0.0.1:8125" "app..") as (_ & Hok).
  destruct (Hok _ Hd) as (c & Hc & _).
  exists c. split; [exact Hc | ].
  inversion Hc; subst c. split; reflexivity.
Defined.

Lemma one_bucket_per_name_witness :
  NoDup (names (Client.buffer (fresh_client "app")))
  /\ NoDup (names (Client.buffer
              (addAll (fresh_client "app") [("a", 1); ("b", 2); ("a", 3)]))).
Proof.
  assert (Hnd : NoDup (names (Client.buffer (fresh_client "app")))) by constructor.
  split; [exact Hnd | ].
  apply (one_bucket_per_name [("a", 1); ("b", 2); ("a", 3)] (fresh_client "app") Hnd).
Defined.

Lemma unit_increments_are_counted_witness :
  Client.buffer (fresh_client "app") = []
  /\ Forall (fun a : string * Z => snd a = 1) [("a", 1); ("b", 1); ("a", 1)]
  /\ Z.of_nat (List.length [("a", 1); ("b", 1); ("a", 1)]) <= Int64.max_int
  /\ pending "a" (Client.buffer
                    (addAll (fresh_client "app") [("a", 1); ("b", 1); ("a", 1)]))
     = 2.
Proof.
  assert (He : Client.buffer (fresh_client "app") = []) by reflexivity.
  assert (Hu : Forall (fun a : string * Z => snd a = 1) [("a", 1); ("b", 1); ("a", 1)])
    by (repeat constructor).
  assert (Hl : Z.of_nat (List.length [("a", 1); ("b", 1); ("a", 1)]) <= Int64.max_int)
    by (unfold Int64.max_int; cbn; lia).
  split; [exact He | split; [exact Hu | split; [exact Hl | ]]].
  apply (unit_increments_are_counted [("a", 1); ("b", 1); ("a", 1)]
           (fresh_client "app") "a" He Hu Hl).
Defined.

Lemma flush_add_flush_witness :
  Client.conn (Client.addToBuffer (fresh_client "app") "hits" 2) <> None
  /\ Client.wire (Client.bufferSendLoop_tick (SC := exampleStrconv)
                    (Client.addToBuffer
                       (Client.bufferSendLoop_tick (SC := exampleStrconv)
                          (Client.addToBuffer (fresh_client "app") "hits" 2))
                       "hits" 5))
     = ["app.hits:2|c|@1.000000"; "app.hits:5|c|@1.000000"].
Proof.
  assert (Hconn : Client.conn (Client.addToBuffer (fresh_client "app") "hits" 2) <> None)
    by discriminate.
  split; [exact Hconn | ].
  apply (flush_add_flush (SC := exampleStrconv)
           (Client.addToBuffer (fresh_client "app") "hits" 2) "hits" 5 Hconn).
Defined.


Lemma getClient_once_witness :
  exists w1,
    getClient (initial exampleRand exampleNet) = Panicked w1
    /\ defaultClient w1 = None
    /\ forall cfg, getClient (Setup w1 cfg) = Returned (Setup w1 cfg).
Proof.
  destruct (getClient_once (initial exampleRand exampleNet))
    as (w1 & Hcall & _ & _ & Hlater & Hpanic).
  exists w1.
  assert (Hp : getClient (initial exampleRand exampleNet) = Panicked w1).
  { destruct Hcall as [Hr | Hp]; [discriminate Hr | exact Hp]. }
  split; [exact Hp | ]. split; [exact (Hpanic Hp) | ].
  intros cfg. apply Hlater.
Defined.

Lemma first_emission_starts_all_witness :
  let cfg := mkConfig "127.0.0.1" 8125 "app." true F32.one in
  Enable cfg = true
  /\ exampleNet (Host cfg ++ ":" ++ Fmt.d (Port cfg)) = inr (mkConn [] (fun _ => None))
  /\ exists w',
       GaugeWithSampling (Setup (initial exampleRand exampleNet) cfg) "temp" 7 F32.one
       = Returned w'
       /\ defaultClient w' = Some (fresh_client "app")
       /\ sendCh w' = Some [gaugeItem F32.one ("temp", 7)].
Proof.
  cbv zeta. split; [reflexivity | split; [reflexivity | ]].
  destruct (first_emission_starts_all exampleRand exampleNet
              (mkConfig "127.0.0.1" 8125 "app." true F32.one)
              (mkConn [] (fun _ => None)) "temp" 7 F32.one eq_refl eq_refl)
    as (w' & Hret & Hc & _ & _ & _ & Hq & _).
  exists w'. split; [exact Hret | split; [exact Hc | exact Hq]].
Defined.

Lemma sendAsync_panic_iff_witness :
  sendLoopOnce (initial exampleRand exampleNet) = false
  /\ exists w',
       sendAsync (initial exampleRand exampleNet) "temp" (I_int64 7) metricTypeGauge
         F32.one = Panicked w'
       /\ sendLoopOnce w' = true.
Proof.
  assert (Hf : sendLoopOnce (initial exampleRand exampleNet) = false) by reflexivity.
  split; [exact Hf | ].
  destruct (sendAsync_panic_iff (initial exampleRand exampleNet) "temp" (I_int64 7)
              metricTypeGauge F32.one Hf) as [_ Hback].
  destruct (Hback (conj eq_refl (or_introl eq_refl))) as (w' & Hp & Hs & _).
  exists w'. split; [exact Hp | exact Hs].
Defined.

Lemma nonpositive_increment_dropped_witness :
  once exampleWorld = true
  /\ defaultClient exampleWorld = Some (fresh_client "app")
  /\ -4 <= 0
  /\ exists w', IncrByVal exampleWorld "hits" (-4) = Returned w'
       /\ defaultClient w' = Some (fresh_client "app").
Proof.
  assert (Hv : -4 <= 0) by lia.
  split; [reflexivity | split; [reflexivity | split; [exact Hv | ]]].
  apply (nonpositive_increment_dropped exampleWorld (fresh_client "app") "hits" (-4)
           F32.one eq_refl eq_refl Hv).
Defined.

Lemma worker_routes_by_kind_witness :
  let item := mkSendItem "hits" (I_int64 2) metricTypeCount F32.one in
  let w := set_sendCh exampleWorld (Some [item]) in
  worker w = true /\ sendCh w = Some [item]
  /\ defaultClient w = Some (fresh_client "app")
  /\ exists w' c',
       workerStep (SC := exampleStrconv) w = Returned w'
       /\ sendCh w' = Some [] /\ defaultClient w' = Some c'
       /\ Client.wire c' = [].
Proof.
  cbv zeta.
  split; [reflexivity | split; [reflexivity | split; [reflexivity | ]]].
  destruct (worker_routes_by_kind (SC := exampleStrconv)
              (set_sendCh exampleWorld
                 (Some [mkSendItem "hits" (I_int64 2) metricTypeCount F32.one]))
              (fresh_client "app")
              (mkSendItem "hits" (I_int64 2) metricTypeCount F32.one) []
              eq_refl eq_refl eq_refl)
    as (w' & c' & Hret & Hq & Hc & _ & _ & Hwire & _).
  exists w', c'. split; [exact Hret | split; [exact Hq | split; [exact Hc | ]]].
  exact (Hwire eq_refl).
Defined.

Lemma ill_typed_item_dropped_witness :
  well_typed metricTypeGauge (I_float64 (F64.of_Z 3)) = false
  /\ sendEx (SC := exampleStrconv) (Some (fresh_client "app")) "temp"
       (I_float64 (F64.of_Z 3)) metricTypeGauge F32.one exampleWorld
     = Returned exampleWorld.
Proof.
  split; [reflexivity | ].
  apply (ill_typed_item_dropped (SC := exampleStrconv) (Some (fresh_client "app"))
           "temp" (I_float64 (F64.of_Z 3)) metricTypeGauge F32.one exampleWorld
           eq_refl).
Defined.

Lemma worker_fifo_witness :
  let items := [("a", 1); ("b", 2)] in
  let w := set_sendCh exampleWorld (Some (map (gaugeItem F32.one) items)) in
  worker w = true
  /\ defaultClient w = Some (fresh_client "app")
  /\ Client.conn (fresh_client "app") <> None
  /\ sendCh w = Some (app (map (gaugeItem F32.one) items) [])
  /\ Forall (fun p : string * Z => fst p <> "" /\ 0 <= snd p) items
  /\ exists w' c',
       workerSteps (SC := exampleStrconv) 2 w = Returned w'
       /\ defaultClient w' = Some c'
       /\ Client.wire c' = ["app.a:1|g|@1.000000"; "app.b:2|g|@1.000000"].
Proof.
  cbv zeta.
  assert (Hconn : Client.conn (fresh_client "app") <> None) by discriminate.
  assert (Hitems : Forall (fun p : string * Z => fst p <> "" /\ 0 <= snd p)
                     [("a", 1); ("b", 2)]).
  { repeat constructor; cbn; try discriminate; lia. }
  split; [reflexivity | ]. split; [reflexivity | ]. split; [exact Hconn | ].
  split; [reflexivity | ]. split; [exact Hitems | ].
  destruct (worker_fifo (SC := exampleStrconv) [("a", 1); ("b", 2)]
              (set_sendCh exampleWorld
                 (Some (map (gaugeItem F32.one) [("a", 1); ("b", 2)])))
              (fresh_client "app") [] eq_refl eq_refl Hconn eq_refl Hitems)
    as (w' & c' & Hrun & Hc & _ & Hwire & _).
  exists w', c'. split; [exact Hrun | split; [exact Hc | exact Hwire]].
Defined.

Lemma burst_keeps_first_witness :
  let items := map (gaugeItem F32.one) [("a", 1); ("b", 2)] in
  sendLoopOnce exampleWorld = true
  /\ sendCh exampleWorld = Some []
  /\ (List.length (@nil sendItem) <= sendChCap)%nat
  /\ sendAsyncAll exampleWorld items
     = Returned (set_sendCh exampleWorld (Some items)).
Proof.
  cbv zeta.
  assert (Hlen : (List.length (@nil sendItem) <= sendChCap)%nat) by apply Nat.le_0_l.
  split; [reflexivity | split; [reflexivity | split; [exact Hlen | ]]].
  destruct (burst_keeps_first (map (gaugeItem F32.one) [("a", 1); ("b", 2)])
              exampleWorld [] eq_refl eq_refl Hlen) as (Hrun & _).
  exact Hrun.
Defined.

Lemma GaugeMultiTimes_spec_witness :
  config exampleWorld = Some (mkConfig "127.0.0.1" 8125 "app" true F32.one)
  /\ sendLoopOnce exampleWorld = true
  /\ sendCh exampleWorld = Some []
  /\ GaugeMultiTimes exampleWorld "temp" 7 3
     = Returned (set_sendCh exampleWorld
                   (Some (repeat (gaugeItem F32.one ("temp", 7)) 3)))
  /\ GaugeMultiTimes exampleWorld "temp" 7 0 = Returned exampleWorld.
Proof.
  destruct (GaugeMultiTimes_spec exampleWorld
              (mkConfig "127.0.0.1" 8125 "app" true F32.one) [] "temp" 7 3
              eq_refl eq_refl eq_refl eq_refl (Nat.le_0_l _)) as (_ & Hpos & _).
  destruct (GaugeMultiTimes_spec exampleWorld
              (mkConfig "127.0.0.1" 8125 "app" true F32.one) [] "temp" 7 0
              eq_refl eq_refl eq_refl eq_refl (Nat.le_0_l _)) as (Hzero & _).
  split; [reflexivity | split; [reflexivity | split; [reflexivity | split]]].
  - apply Hpos. lia.
  - apply Hzero. lia.
Defined.

Lemma timing_in_milliseconds_witness :
  config exampleWorld = Some (mkConfig "127.0.0.1" 8125 "app" true F32.one)
  /\ Int64.in_range (-1999999)
  /\ TimingByValueWithSampling exampleWorld "load" (-1999999) F32.one
     = sendAsync exampleWorld "load" (I_int64 (-1)) metricTypeTimer F32.one.
Proof.
  assert (Hd : Int64.in_range (-1999999))
    by (unfold Int64.in_range, Int64.min_int, Int64.max_int; lia).
  split; [reflexivity | split; [exact Hd | ]].
  apply (timing_in_milliseconds exampleWorld
           (mkConfig "127.0.0.1" 8125 "app" true F32.one) "load" (-1999999)
           F32.one eq_refl eq_refl Hd).
Defined.

Lemma gauges_reach_the_wire_witness :
  let items := [("a", 1); ("b", 2)] in
  sendLoopOnce exampleWorld = true /\ worker exampleWorld = true
  /\ sendCh exampleWorld = Some []
  /\ defaultClient exampleWorld = Some (fresh_client "app")
  /\ Client.conn (fresh_client "app") <> None
  /\ (List.length items <= sendChCap)%nat
  /\ Forall (fun p : string * Z => fst p <> "" /\ 0 <= snd p) items
  /\ exists w' c',
       bind (sendAsyncAll exampleWorld (map (gaugeItem F32.one) items))
         (workerSteps (SC := exampleStrconv) (List.length items)) = Returned w'
       /\ defaultClient w' = Some c'
       /\ Client.wire c' = ["app.a:1|g|@1.000000"; "app.b:2|g|@1.000000"].
Proof.
  cbv zeta.
  assert (Hconn : Client.conn (fresh_client "app") <> None) by discriminate.
  assert (Hfit : (List.length [("a", 1); ("b", 2)] <= sendChCap)%nat).
  { unfold sendChCap. cbn [List.length]. apply Nat.leb_le. reflexivity. }
  assert (Hitems : Forall (fun p : string * Z => fst p <> "" /\ 0 <= snd p)
                     [("a", 1); ("b", 2)]).
  { repeat constructor; cbn; try discriminate; lia. }
  split; [reflexivity | ]. split; [reflexivity | ]. split; [reflexivity | ].
  split; [reflexivity | ]. split; [exact Hconn | ]. split; [exact Hfit | ].
  split; [exact Hitems | ].
  destruct (gauges_reach_the_wire (SC := exampleStrconv) [("a", 1); ("b", 2)]
              exampleWorld (fresh_client "app") eq_refl eq_refl eq_refl eq_refl
              Hconn Hfit Hitems) as (w' & c' & Hrun & Hc & _ & Hwire).
  exists w', c'. split; [exact Hrun | split; [exact Hc | exact Hwire]].
Defined.

Lemma gated_emitters_do_nothing_witness :
  (config (initial exampleRand exampleNet) = None
   \/ exists cfg, config (initial exampleRand exampleNet) = Some cfg
                  /\ Enable cfg = false)
  /\ Gauge (initial exampleRand exampleNet) "temp" 7
     = Returned (initial exampleRand exampleNet)
  /\ Timing (initial exampleRand exampleNet) "load" 0 1000000
     = Returned (initial exampleRand exampleNet).
Proof.
  assert (Hoff : config (initial exampleRand exampleNet) = None
                 \/ exists cfg, config (initial exampleRand exampleNet) = Some cfg
                                /\ Enable cfg = false)
    by (left; reflexivity).
  destruct (gated_emitters_do_nothing (initial exampleRand exampleNet) "temp" 7 1
              (F64.of_Z 7) 0 1000000 F32.one Hoff)
    as (_ & _ & Hg & _ & _ & _ & _ & _ & _ & _ & Ht).
  split; [exact Hoff | split; [exact Hg | exact Ht]].
Defined.
